(** * Seating-chart generator (seatmap-browser.py): model and verification

    A shallow embedding of the four functions that make up the algorithmic
    core of [seatmap-browser.py]:

    - [num_to_chinese]           (lines 7-30)
    - [compute_seating_pattern]  (lines 32-65)
    - [generate_column_labels]   (lines 67-87)
    - [generate_seating_chart]   (lines 89-151)

    Python integers are unbounded, so they are modelled as [Z]; [//] and [%]
    with a positive divisor are [Z.div] and [Z.modulo] (both floor).  Python
    strings are sequences of Unicode code points and are modelled as lists of
    code points.  Exceptions are modelled by an error monad. *)

From stdpp Require Import gmap list strings sorting.
From Stdlib Require Import ZArith Lia DecimalN.

Local Open Scope Z_scope.

(** ** Python strings *)

(** A Python [str] is a sequence of code points. *)
Abbreviation pystr := (list N).

(** Decoder used only to write string literals of the source legibly: the
    literal is given as UTF-8 text and decoded to its code points. *)
Fixpoint utf8_decode (bs : list N) : pystr :=
  match bs with
  | [] => []
  | b :: rest =>
    if (b <? 128)%N then b :: utf8_decode rest
    else if (b <? 224)%N then
      match rest with
      | c1 :: r => ((b - 192) * 64 + (c1 - 128))%N :: utf8_decode r
      | _ => []
      end
    else if (b <? 240)%N then
      match rest with
      | c1 :: c2 :: r =>
        ((b - 224) * 4096 + (c1 - 128) * 64 + (c2 - 128))%N :: utf8_decode r
      | _ => []
      end
    else
      match rest with
      | c1 :: c2 :: c3 :: r =>
        ((b - 240) * 262144 + (c1 - 128) * 4096 + (c2 - 128) * 64 + (c3 - 128))%N
          :: utf8_decode r
      | _ => []
      end
  end.

Definition py (s : string) : pystr :=
  utf8_decode (map Ascii.N_of_ascii (String.list_ascii_of_string s)).

(** [str.isspace] on one code point: the white-space set of CPython
    ([_PyUnicode_IsWhitespace]), which is what [str.strip()] removes. *)
Definition is_space (c : N) : bool :=
  ((9 <=? c) && (c <=? 13) || (28 <=? c) && (c <=? 32) || (c =? 133)
   || (c =? 160) || (c =? 5760) || (8192 <=? c) && (c <=? 8202)
   || (c =? 8232) || (c =? 8233) || (c =? 8239) || (c =? 8287)
   || (c =? 12288))%N.

Fixpoint lstrip (s : pystr) : pystr :=
  match s with
  | c :: s' => if is_space c then lstrip s' else s
  | [] => []
  end.

Definition rstrip (s : pystr) : pystr := reverse (lstrip (reverse s)).

(** [s.strip()] *)
Definition strip (s : pystr) : pystr := rstrip (lstrip s).

(** [str.lower] on one code point.  Only the ASCII letters are mapped; the
    source uses [lower()] solely to compare with the ASCII text ['nan'], and
    no non-ASCII code point lower-cases to ['n'] or ['a'], so the outcome of
    that comparison, the only use of the result, is the one of Python. *)
Definition lower_char (c : N) : N :=
  if ((65 <=? c) && (c <=? 90))%N then (c + 32)%N else c.

(** [s.lower()] *)
Definition lower (s : pystr) : pystr := map lower_char s.

(** [sep.join(parts)] *)
Fixpoint join (sep : pystr) (parts : list pystr) : pystr :=
  match parts with
  | [] => []
  | [p] => p
  | p :: rest => p ++ sep ++ join sep rest
  end.

(** Decimal digits of a [Decimal.uint] as code points. *)
Fixpoint uint_digits (u : Decimal.uint) : pystr :=
  match u with
  | Decimal.Nil => []
  | Decimal.D0 u => 48%N :: uint_digits u
  | Decimal.D1 u => 49%N :: uint_digits u
  | Decimal.D2 u => 50%N :: uint_digits u
  | Decimal.D3 u => 51%N :: uint_digits u
  | Decimal.D4 u => 52%N :: uint_digits u
  | Decimal.D5 u => 53%N :: uint_digits u
  | Decimal.D6 u => 54%N :: uint_digits u
  | Decimal.D7 u => 55%N :: uint_digits u
  | Decimal.D8 u => 56%N :: uint_digits u
  | Decimal.D9 u => 57%N :: uint_digits u
  end.

(** The format specification [:02d] of an f-string: decimal rendering,
    sign first, then zeros up to a minimum total width of two. *)
Definition format_02d (num : Z) : pystr :=
  let sign := if num <? 0 then [45%N] else [] in
  let digits := uint_digits (N.to_uint (Z.abs_N num)) in
  sign ++ replicate (2 - length sign - length digits)%nat 48%N ++ digits.

(** ** Exceptions *)

Inductive exn : Set :=
  | KeyError            (* dict subscript with an absent key *)
  | IndexError          (* list subscript out of range *)
  | ZeroDivisionError   (* [/] by zero *)
  | FuelExhausted.      (* the bound put on a [while] loop was reached *)

Inductive res (A : Type) : Type :=
  | Ok (a : A)
  | Raise (e : exn).
Arguments Ok {A} a.
Arguments Raise {A} e.

#[global] Instance res_ret : MRet res := fun _ a => Ok a.
#[global] Instance res_bind : MBind res := fun _ _ f m =>
  match m with
  | Ok a => f a
  | Raise e => Raise e
  end.

(** [d[k]] on a dict. *)
Definition dict_get {V} (d : gmap Z V) (k : Z) : res V :=
  match d !! k with
  | Some v => Ok v
  | None => Raise KeyError
  end.

(** [l[i]] on a list: a negative index counts from the end. *)
Definition list_get {A} (l : list A) (i : Z) : res A :=
  let n := Z.of_nat (length l) in
  let j := if i <? 0 then i + n else i in
  if (0 <=? j) && (j <? n) then
    match l !! Z.to_nat j with
    | Some x => Ok x
    | None => Raise IndexError
    end
  else Raise IndexError.

(** [l[i] = x] on a list. *)
Definition list_set {A} (l : list A) (i : Z) (x : A) : res (list A) :=
  let n := Z.of_nat (length l) in
  let j := if i <? 0 then i + n else i in
  if (0 <=? j) && (j <? n) then Ok (<[Z.to_nat j := x]> l)
  else Raise IndexError.

(** [range(n)] *)
Definition range (n : Z) : list Z := seqZ 0 n.

(** ** num_to_chinese *)

Definition mapping : gmap Z pystr :=
  {[ 1 := py "一"; 2 := py "二"; 3 := py "三"; 4 := py "四"; 5 := py "五";
     6 := py "六"; 7 := py "七"; 8 := py "八"; 9 := py "九"; 10 := py "十" ]}.

Definition num_to_chinese (num : Z) : res pystr :=
  match mapping !! num with
  | Some token => Ok token
  | None =>
    let tens := num / 10 in
    let ones := num mod 10 in
    tens_part ← (if 1 <? tens
                 then t ← dict_get mapping tens; Ok (t ++ py "十")
                 else Ok (py "十"));
    ones_part ← (if negb (ones =? 0) then dict_get mapping ones else Ok []);
    Ok (tens_part ++ ones_part)
  end.

(** ** compute_seating_pattern *)

(** The [while left >= 0 or right < seats_per_row] loop shared by both
    branches; [fuel] bounds the number of times the loop condition is
    evaluated. *)
Fixpoint pattern_loop (fuel : nat) (seats_per_row left right : Z)
    (toggle : bool) (pattern : list Z) : res (list Z) :=
  match fuel with
  | O => Raise FuelExhausted
  | S fuel' =>
    if (0 <=? left) || (right <? seats_per_row) then
      if toggle && (0 <=? left) then
        pattern_loop fuel' seats_per_row (left - 1) right (negb toggle)
                     (pattern ++ [left])
      else if negb toggle && (right <? seats_per_row) then
        pattern_loop fuel' seats_per_row left (right + 1) (negb toggle)
                     (pattern ++ [right])
      else
        pattern_loop fuel' seats_per_row left right (negb toggle) pattern
    else Ok pattern
  end.

Definition compute_seating_pattern (seats_per_row : Z) : res (list Z) :=
  let fuel := S (Z.to_nat seats_per_row) in
  if seats_per_row mod 2 =? 0 then
    let best_index := seats_per_row / 2 - 1 in
    pattern_loop fuel seats_per_row best_index (best_index + 1) true []
  else
    let best_index := seats_per_row / 2 in
    pattern_loop fuel seats_per_row (best_index - 1) (best_index + 1) true
                 [best_index].

(** ** generate_column_labels *)

Definition generate_column_labels (seats_per_row : Z) : list pystr :=
  let '(left_count, right_count) :=
    if seats_per_row mod 2 =? 0
    then (seats_per_row / 2, seats_per_row / 2)
    else (seats_per_row / 2 + 1, seats_per_row / 2) in
  let labels := [] in
  let labels :=
    foldl (fun labels i => labels ++ [format_02d (2 * left_count - (2 * i + 1))])
          labels (range left_count) in
  let labels :=
    foldl (fun labels i => labels ++ [format_02d (2 * (i + 1))])
          labels (range right_count) in
  labels.

(** ** generate_seating_chart *)

(** A value of the NAME column as the reader delivers it: text, or the
    missing-value marker (NaN) of an empty cell. *)
Inductive cell : Type :=
  | Text (s : pystr)
  | Missing.

(** One row of the input table. *)
Record person : Type := { PERSONID : Z; NAME : cell }.

(** One entry of the [assignments] list. *)
Record assignment : Type :=
  { A_PERSONID : Z; A_NAME : cell; ROW : pystr; SEAT : pystr }.

(** The returned [seating_df]: header and rows. *)
Record dataframe : Type := { columns : list pystr; table : list (list cell) }.

(** [pd.isna(v)] *)
Definition isna (v : cell) : bool :=
  match v with
  | Missing => true
  | Text _ => false
  end.

(** [str(v)] *)
Definition str (v : cell) : pystr :=
  match v with
  | Text s => s
  | Missing => py "nan"
  end.

(** Stable sort by an integer key, ascending: the order that
    [sort_values(by=..., ascending=True)] and [list.sort(key=...)] yield.
    (pandas does not promise the order of rows with equal keys; rows with
    equal keys are kept in input order here.) *)
Fixpoint insert_by {A} (key : A -> Z) (x : A) (l : list A) : list A :=
  match l with
  | [] => [x]
  | y :: l' => if key x <=? key y then x :: l else y :: insert_by key x l'
  end.

Definition sort_by {A} (key : A -> Z) (l : list A) : list A :=
  foldr (insert_by key) [] l.

(** [l[a:b]] and [.iloc[a:b]]: negative bounds count from the end, and the
    bounds are clipped to the length. *)
Definition clip_index (n i : Z) : Z :=
  Z.max 0 (Z.min n (if i <? 0 then i + n else i)).

Definition slice {A} (l : list A) (a b : Z) : list A :=
  let n := Z.of_nat (length l) in
  let a' := clip_index n a in
  let b' := clip_index n b in
  take (Z.to_nat (b' - a')) (drop (Z.to_nat a') l).

(** [enumerate(l)], counting from [i]. *)
Fixpoint enumerate_from {A} (i : nat) (l : list A) : list (nat * A) :=
  match l with
  | [] => []
  | x :: l' => (i, x) :: enumerate_from (S i) l'
  end.

(** A [for] loop whose body may raise: [s] is the state the body updates. *)
Fixpoint for_each {A S} (body : S -> A -> res S) (s : S) (xs : list A) : res S :=
  match xs with
  | [] => Ok s
  | x :: xs' => s' ← body s x; for_each body s' xs'
  end.

(** [math.ceil(a / b)].  The source divides in floating point and rounds up;
    for operands below 2^53 (any list that fits in memory) that is the exact
    integer ceiling, which is what is modelled. *)
Definition ceil_div (a b : Z) : res Z :=
  if b =? 0 then Raise ZeroDivisionError else Ok (- ((- a) / b)).

(** [f"第{num_to_chinese(n)}排"] *)
Definition row_label_of (n : Z) : res pystr :=
  numeral ← num_to_chinese n; Ok (py "第" ++ numeral ++ py "排").

(** Body of the inner loop (lines 115-127). *)
Definition seat_person (seating_pattern : list Z) (col_labels : list pystr)
    (row : Z) (st : list cell * list assignment) (ip : nat * person)
  : res (list cell * list assignment) :=
  let '(row_seats, assignments) := st in
  let '(i, person) := ip in
  match seating_pattern !! i with
  | Some seat_index =>
    row_seats ← list_set row_seats seat_index (NAME person);
    row_label ← row_label_of (row + 1);
    seat_label ← list_get col_labels seat_index;
    Ok (row_seats,
        assignments ++ [ {| A_PERSONID := PERSONID person;
                            A_NAME := NAME person;
                            ROW := row_label;
                            SEAT := seat_label |} ])
  | None => Ok (row_seats, assignments)
  end.

(** Body of the outer loop (lines 110-128). *)
Definition seat_row (df_sorted : list person) (seats_per_row total_people : Z)
    (seating_pattern : list Z) (col_labels : list pystr)
    (st : list (list cell) * list assignment) (row : Z)
  : res (list (list cell) * list assignment) :=
  let '(seating_chart, assignments) := st in
  let row_seats := replicate (Z.to_nat seats_per_row) (Text []) in
  let start_idx := row * seats_per_row in
  let end_idx := Z.min (start_idx + seats_per_row) total_people in
  let persons := slice df_sorted start_idx end_idx in
  '(row_seats, assignments) ←
    for_each (seat_person seating_pattern col_labels row)
             (row_seats, assignments) (enumerate_from 0 persons);
  Ok (seating_chart ++ [row_seats], assignments).

(** The rendering of one entry of the explanation text (lines 145-148). *)
Definition explanation_line (item : assignment) : pystr :=
  let name_val := A_NAME item in
  let name_val :=
    if isna name_val
       || bool_decide (lower (strip (str name_val)) = py "nan")
       || bool_decide (strip (str name_val) = [])
    then Text (py "预留空位")
    else name_val in
  str name_val ++ py " 在" ++ ROW item ++ py "第" ++ SEAT item ++ py "座位。".

(** The local variables of [generate_seating_chart] when it returns. *)
Record locals : Type :=
  { df_sorted : list person;
    num_rows : Z;
    seating_chart : list (list cell);
    assignments : list assignment;
    seating_df : dataframe;
    explanation_lines : list pystr;
    explanation_text : pystr }.

(** The body of [generate_seating_chart], on the table [df] that
    [pd.read_excel] delivers. *)
Definition generate_seating_chart_body (df : list person) (seats_per_row : Z)
  : res locals :=
  let df_sorted := sort_by PERSONID df in
  let total_people := Z.of_nat (length df_sorted) in
  num_rows ← ceil_div total_people seats_per_row;
  seating_pattern ← compute_seating_pattern seats_per_row;
  let col_labels := generate_column_labels seats_per_row in
  '(seating_chart, assignments) ←
    for_each (seat_row df_sorted seats_per_row total_people
                       seating_pattern col_labels)
             ([], []) (range num_rows);
  let seating_chart_final := reverse seating_chart in
  row_labels ← mapM (fun i => row_label_of (i + 1)) (range num_rows);
  let row_labels_final := reverse row_labels in
  let final_table :=
    zip_with (fun label row => Text label :: row)
             row_labels_final seating_chart_final in
  let columns := py "排号" :: col_labels in
  let seating_df := {| columns := columns; table := final_table |} in
  let assignments := sort_by A_PERSONID assignments in
  let explanation_lines := map explanation_line assignments in
  let explanation_text := join [10%N] explanation_lines in
  Ok {| df_sorted := df_sorted;
        num_rows := num_rows;
        seating_chart := seating_chart;
        assignments := assignments;
        seating_df := seating_df;
        explanation_lines := explanation_lines;
        explanation_text := explanation_text |}.

Definition generate_seating_chart (df : list person) (seats_per_row : Z)
  : res (dataframe * pystr) :=
  l ← generate_seating_chart_body df seats_per_row;
  Ok (seating_df l, explanation_text l).

(** ** Definitions used to state and prove the properties *)

(** The ten atomic tokens of the contract. *)
Definition atomic_token (d : Z) : pystr :=
  match d with
  | 1 => py "一" | 2 => py "二" | 3 => py "三" | 4 => py "四" | 5 => py "五"
  | 6 => py "六" | 7 => py "七" | 8 => py "八" | 9 => py "九" | 10 => py "十"
  | _ => []
  end.

(** The ones token, omitted when the ones digit is zero. *)
Definition ones_token (d : Z) : pystr := if d =? 0 then [] else atomic_token d.

(** The contract of the numeral formatter, following the specification. *)
Definition numeral_contract (n : Z) : pystr :=
  if n <=? 10 then atomic_token n
  else if n <=? 19 then py "十" ++ ones_token (n mod 10)
  else atomic_token (n / 10) ++ py "十" ++ ones_token (n mod 10).

(** The order in which the loop emits seats once [n] seats remain on each
    side: left [n-1], right [W-n], left [n-2], right [W-n+1], ... *)
Fixpoint outward (W : Z) (n : nat) : list Z :=
  match n with
  | O => []
  | S n' => Z.of_nat n' :: (W - Z.of_nat n' - 1) :: outward W n'
  end.

(** Closed form of the fill pattern. *)
Definition fill_pattern (W : Z) : list Z :=
  (if W mod 2 =? 0 then [] else [W / 2]) ++ outward W (Z.to_nat (W / 2)).

(** Reading a decimal numeral back: the number a string of digits denotes. *)
Definition digit_value (c : N) : option Z :=
  if ((48 <=? c) && (c <=? 57))%N then Some (Z.of_N c - 48) else None.

Fixpoint numeral_value_from (acc : Z) (s : pystr) : option Z :=
  match s with
  | [] => Some acc
  | c :: s' => d ← digit_value c; numeral_value_from (10 * acc + d) s'
  end.

Definition numeral_value (s : pystr) : option Z :=
  match s with
  | [] => None
  | _ => numeral_value_from 0 s
  end.

(** The row label, where the numeral formatter returns one. *)
Definition row_label (n : Z) : pystr :=
  match row_label_of n with
  | Ok label => label
  | Raise _ => []
  end.

(** The seats of a row after [persons] have been seated from the [i]-th
    position of the pattern onwards. *)
Fixpoint fill_seats (pattern : list Z) (i : nat) (persons : list person)
    (row_seats : list cell) : list cell :=
  match persons with
  | [] => row_seats
  | x :: ps =>
    fill_seats pattern (S i) ps (<[Z.to_nat (pattern !!! i) := NAME x]> row_seats)
  end.

(** The placement record of the attendee at position [i] of the sorted table. *)
Definition placement (W : nat) (i : nat) (x : person) : assignment :=
  {| A_PERSONID := PERSONID x;
     A_NAME := NAME x;
     ROW := row_label (Z.of_nat (i / W) + 1);
     SEAT := generate_column_labels (Z.of_nat W)
               !!! Z.to_nat (fill_pattern (Z.of_nat W) !!! (i mod W)%nat) |}.

(** The logical row [r] of the chart. *)
Definition chart_row (W : nat) (s : list person) (r : nat) : list cell :=
  fill_seats (fill_pattern (Z.of_nat W)) 0 (take W (drop (r * W) s))
             (replicate W (Text [])).

(** The values of the local variables when the function returns. *)
Definition final_locals (W R : nat) (df : list person) : locals :=
  let s := sort_by PERSONID df in
  let records := imap (placement W) s in
  {| df_sorted := s;
     num_rows := Z.of_nat R;
     seating_chart := chart_row W s <$> seq 0 R;
     assignments := records;
     seating_df :=
       {| columns := py "排号" :: generate_column_labels (Z.of_nat W);
          table := (fun r => Text (row_label (Z.of_nat r + 1)) :: chart_row W s r)
                     <$> reverse (seq 0 R) |};
     explanation_lines := explanation_line <$> records;
     explanation_text := join [10%N] (explanation_line <$> records) |}.

(** The number of rows, [ceil(N / W)]. *)
Definition row_count (N W : Z) : Z := (N + W - 1) / W.

(** Attendees [1..n], each named by [name]. *)
Definition attendees (name : Z -> cell) (n : Z) : list person :=
  (fun i => {| PERSONID := i; NAME := name i |}) <$> seqZ 1 n.

(** The seat that is filled [k]-th in a row of [W] seats: from the centre
    outwards, left before right. *)
Definition seat_at (W k : Z) : Z :=
  if W mod 2 =? 0
  then (if k mod 2 =? 0 then W / 2 - 1 - k / 2 else W / 2 + k / 2)
  else (if k mod 2 =? 0 then W / 2 + k / 2 else W / 2 - (k + 1) / 2).

(** ** write_to_excel *)

(** [s.split(sep)] for a separator of one character. *)
Fixpoint split_on (sep : N) (s : pystr) : list pystr :=
  match s with
  | [] => [[]]
  | c :: s' =>
    if (c =? sep)%N then [] :: split_on sep s'
    else match split_on sep s' with
         | piece :: rest => (c :: piece) :: rest
         | [] => [[c]]
         end
  end.

(** [range(a, b)] *)
Definition range_from (a b : Z) : list Z := seqZ a (b - a).

(** A value in the dict given to [workbook.add_format]. *)
Inductive prop_value : Type :=
  | PStr (s : pystr)
  | PInt (n : Z)
  | PBool (b : bool).

(** A format: the dict it was made from. *)
Abbreviation cell_format := (list (pystr * prop_value)).

(** The calls that [write_to_excel] makes on the data frame and on the
    worksheet of the writer. *)
Inductive sheet_call : Type :=
  | ToExcel (df : dataframe) (sheet_name : pystr) (startrow startcol : Z)
            (index : bool)
  | MergeRange (first_row first_col last_row last_col : Z) (data : pystr)
               (fmt : cell_format)
  | SetRow (row height : Z).

(** The [merge_format] of [write_to_excel]. *)
Definition merge_format : cell_format :=
  [ (py "align", PStr (py "center"));
    (py "valign", PStr (py "vcenter"));
    (py "font_size", PInt 14);
    (py "bold", PBool true);
    (py "num_format", PStr (py "@")) ].

(** The [explanation_format] of [write_to_excel]. *)
Definition explanation_format : cell_format :=
  [ (py "align", PStr (py "left"));
    (py "valign", PStr (py "top"));
    (py "text_wrap", PBool true);
    (py "font_size", PInt 10) ].

(** The banner text: a zero-width space, then the stage marker. *)
Definition title_text : pystr := 8203%N :: py "=========主席台=========".

(** [write_to_excel], as the sequence of calls it makes; the bytes it
    returns are what the spreadsheet library makes of these calls. *)
Definition write_to_excel (seating_df : dataframe) (explanation_text : pystr)
  : list sheet_call :=
  let num_table_rows := Z.of_nat (length (table seating_df)) + 1 in
  let num_table_cols := Z.of_nat (length (columns seating_df)) in
  let title_row := num_table_rows in
  let first_col := 0 in
  let last_col := num_table_cols - 1 in
  let explanation_start_row := title_row + 2 in
  let explanation_lines := split_on 10%N explanation_text in
  let explanation_text_full := join [10%N] explanation_lines in
  let explanation_end_row :=
    explanation_start_row + Z.of_nat (length explanation_lines) - 1 in
  [ ToExcel seating_df (py "Sheet1") 0 0 false;
    MergeRange title_row first_col title_row last_col title_text merge_format;
    MergeRange explanation_start_row first_col explanation_end_row last_col
               explanation_text_full explanation_format ]
  ++ ((fun r => SetRow r 20)
        <$> range_from explanation_start_row (explanation_end_row + 1)).

(** The number of occurrences of a character in a string. *)
Definition count_char (c : N) (s : pystr) : nat :=
  length (filter (fun x => x = c) s).

(** * Properties *)

(** [test_is t v] replaces the integer test [t] by its value [v] when
    linear arithmetic settles it. *)
Ltac test_is t v :=
  replace t with v
    by (symmetry;
        first [ apply Z.ltb_lt | apply Z.ltb_ge | apply Z.leb_le
              | apply Z.leb_gt | apply Z.eqb_eq | apply Z.eqb_neq ];
        lia).

(** ** The numeral formatter *)

Lemma mapping_lookup (d : Z) :
  1 <= d <= 10 -> mapping !! d = Some (atomic_token d).
Proof.
  intros H.
  assert (d = 1 \/ d = 2 \/ d = 3 \/ d = 4 \/ d = 5 \/ d = 6 \/ d = 7 \/ d = 8
          \/ d = 9 \/ d = 10) as Hd by lia.
  repeat (destruct Hd as [-> | Hd]); try subst d; reflexivity.
Qed.

Lemma mapping_lookup_None (d : Z) : d < 1 \/ 10 < d -> mapping !! d = None.
Proof.
  intros H. unfold mapping.
  repeat (rewrite lookup_insert_ne by lia).
  apply lookup_singleton_ne. lia.
Qed.

Lemma dict_get_digit (d : Z) :
  1 <= d <= 10 -> dict_get mapping d = Ok (atomic_token d).
Proof. intros H. unfold dict_get. by rewrite mapping_lookup. Qed.

Lemma dict_get_absent (d : Z) :
  d < 1 \/ 10 < d -> dict_get mapping d = Raise KeyError.
Proof. intros H. unfold dict_get. by rewrite mapping_lookup_None. Qed.

Lemma ones_part_ok (n : Z) :
  (if negb (n mod 10 =? 0) then dict_get mapping (n mod 10) else Ok [])
  = Ok (ones_token (n mod 10)).
Proof.
  unfold ones_token. pose proof (Z.mod_pos_bound n 10 ltac:(lia)).
  destruct (n mod 10 =? 0) eqn:E; simpl; [done|].
  apply dict_get_digit. lia.
Qed.

Lemma num_to_chinese_atomic (n : Z) :
  1 <= n <= 10 -> num_to_chinese n = Ok (atomic_token n).
Proof. intros H. unfold num_to_chinese. by rewrite mapping_lookup. Qed.

Lemma num_to_chinese_compound (n : Z) :
  n < 1 \/ 10 < n ->
  num_to_chinese n =
    (tens_part ← (if 1 <? n / 10
                  then t ← dict_get mapping (n / 10); Ok (t ++ py "十")
                  else Ok (py "十"));
     Ok (tens_part ++ ones_token (n mod 10))).
Proof.
  intros H. unfold num_to_chinese. rewrite mapping_lookup_None by done.
  cbv zeta. rewrite ones_part_ok. reflexivity.
Qed.

(** Claim C5.  For every [n] with [1 <= n <= 99] the formatter returns the
    numeral of the contract: the atomic token for 1..10; for 11..19 the ten
    token followed by the ones token; for 20..99 the token of the tens
    digit, the ten token, and the ones token, which is left out when the
    ones digit is zero. *)
Theorem num_to_chinese_contract (n : Z) :
  1 <= n <= 99 -> num_to_chinese n = Ok (numeral_contract n).
Proof.
  intros H. unfold numeral_contract.
  destruct (n <=? 10) eqn:E1.
  - apply num_to_chinese_atomic. lia.
  - rewrite num_to_chinese_compound by lia.
    destruct (n <=? 19) eqn:E2.
    + apply Z.leb_le in E2. apply Z.leb_gt in E1.
      assert (n / 10 = 1) as ->
        by (symmetry; apply (Z.div_unique n 10 1 (n - 10)); lia).
      reflexivity.
    + assert (2 <= n / 10 <= 9).
      { apply Z.leb_gt in E2. split.
        - apply Z.div_le_lower_bound; lia.
        - apply Z.lt_succ_r. apply Z.div_lt_upper_bound; lia. }
      test_is (1 <? n / 10) true.
      rewrite dict_get_digit by lia. simpl. by rewrite <- app_assoc.
Qed.

Lemma num_to_chinese_contract_witness :
  1 <= 45 <= 99 /\ num_to_chinese 45 = Ok (py "四十五").
Proof. split; [lia | exact (num_to_chinese_contract 45 ltac:(lia))]. Defined.

Lemma num_to_chinese_fails (n : Z) :
  110 <= n -> num_to_chinese n = Raise KeyError.
Proof.
  intros Hn. rewrite num_to_chinese_compound by lia.
  assert (11 <= n / 10) by (apply Z.div_le_lower_bound; lia).
  test_is (1 <? n / 10) true.
  rewrite dict_get_absent by lia. reflexivity.
Qed.

(** Claim C4 (amended).  Outside 1..99 the formatter has no range check:
    it raises (a [KeyError], from the lookup of the tens digit) exactly when
    [n >= 110]; for [n <= 0] it returns the ten token followed by the ones
    token of [n mod 10], and for 100..109 it returns the ten token twice
    followed by the ones token. *)
Theorem num_to_chinese_out_of_range (n : Z) :
  n <= 0 \/ 100 <= n ->
  num_to_chinese n =
    if 110 <=? n then Raise KeyError
    else Ok ((if 100 <=? n then py "十十" else py "十") ++ ones_token (n mod 10)).
Proof.
  intros H. destruct (110 <=? n) eqn:E1.
  - apply Z.leb_le in E1. by apply num_to_chinese_fails.
  - rewrite num_to_chinese_compound by lia.
    apply Z.leb_gt in E1. destruct (100 <=? n) eqn:E2.
    + apply Z.leb_le in E2.
      assert (n / 10 = 10) as ->
        by (symmetry; apply (Z.div_unique n 10 10 (n - 100)); lia).
      reflexivity.
    + apply Z.leb_gt in E2.
      assert (n / 10 <= 0).
      { apply Z.lt_succ_r. apply Z.div_lt_upper_bound; lia. }
      test_is (1 <? n / 10) false.
      reflexivity.
Qed.

Lemma num_to_chinese_out_of_range_witness :
  (105 <= 0 \/ 100 <= 105) /\ num_to_chinese 105 = Ok (py "十十五").
Proof.
  split; [right; lia|].
  exact (num_to_chinese_out_of_range 105 ltac:(right; lia)).
Defined.

(** Claim C4 as stated fails: 0 and 100 are outside the supported range and
    the formatter returns a token for both. *)
Lemma num_to_chinese_zero_returns :
  num_to_chinese 0 = Ok (py "十") /\
  num_to_chinese 100 = Ok (py "十十") /\
  ~ (forall n : Z, n <= 0 \/ 100 <= n -> exists e, num_to_chinese n = Raise e).
Proof.
  split; [reflexivity | split; [reflexivity |]].
  intros H. destruct (H 0 ltac:(lia)) as [e He]. discriminate He.
Qed.

(** ** The fill pattern *)

Lemma pattern_loop_outward (W : Z) (n : nat) :
  forall (fuel : nat) (pattern : list Z),
    (2 * n < fuel)%nat ->
    pattern_loop fuel W (Z.of_nat n - 1) (W - Z.of_nat n) true pattern
    = Ok (pattern ++ outward W n).
Proof.
  induction n as [|n IH]; intros fuel pattern Hfuel.
  - destruct fuel as [|fuel]; [lia|]. simpl.
    test_is (W - Z.of_nat 0 <? W) false.
    by rewrite app_nil_r.
  - destruct fuel as [|[|fuel]]; [lia..|].
    cbn [pattern_loop].
    test_is (0 <=? Z.of_nat (S n) - 1) true.
    cbn [orb andb negb].
    test_is (W - Z.of_nat (S n) <? W) true.
    cbn [orb andb negb].
    replace (Z.of_nat (S n) - 1 - 1) with (Z.of_nat n - 1) by lia.
    replace (W - Z.of_nat (S n) + 1) with (W - Z.of_nat n) by lia.
    rewrite IH by lia. rewrite <- !app_assoc. cbn [outward app].
    rewrite orb_true_r. f_equal. f_equal. f_equal; [lia|]. f_equal. lia.
Qed.

Lemma length_outward (W : Z) (n : nat) : length (outward W n) = (2 * n)%nat.
Proof. induction n; simpl; lia. Qed.

Lemma outward_Permutation (W : Z) (n : nat) :
  outward W n ≡ₚ seqZ 0 (Z.of_nat n) ++ seqZ (W - Z.of_nat n) (Z.of_nat n).
Proof.
  induction n as [|n IH]; [done|].
  cbn [outward]. rewrite IH.
  rewrite (seqZ_S 0 n).
  rewrite (seqZ_cons (W - Z.of_nat (S n))) by lia.
  replace (Z.succ (W - Z.of_nat (S n))) with (W - Z.of_nat n) by lia.
  replace (Z.pred (Z.of_nat (S n))) with (Z.of_nat n) by lia.
  replace (W - Z.of_nat n - 1) with (W - Z.of_nat (S n)) by lia.
  simpl. rewrite <- !app_assoc. simpl.
  rewrite <- !Permutation_middle.
  by replace (0 + Z.of_nat n) with (Z.of_nat n) by lia.
Qed.

(** Both positions emitted at step [t]. *)
Lemma outward_lookup (W : Z) (n t : nat) :
  (t < n)%nat ->
  outward W n !! (2 * t)%nat = Some (Z.of_nat n - 1 - Z.of_nat t) /\
  outward W n !! (2 * t + 1)%nat = Some (W - Z.of_nat n + Z.of_nat t).
Proof.
  revert t. induction n as [|n IH]; intros t Ht; [lia|].
  destruct t as [|t].
  - simpl. split; f_equal; lia.
  - replace (2 * S t)%nat with (S (S (2 * t))) by lia.
    cbn [outward Nat.add lookup list_lookup].
    destruct (IH t ltac:(lia)) as [H1 H2].
    split.
    + change (outward W n !! (2 * t)%nat = Some (Z.of_nat (S n) - 1 - Z.of_nat (S t))).
      rewrite H1. f_equal. lia.
    + change (outward W n !! (2 * t + 1)%nat = Some (W - Z.of_nat (S n) + Z.of_nat (S t))).
      rewrite H2. f_equal. lia.
Qed.

Lemma compute_seating_pattern_closed (W : Z) :
  0 <= W -> compute_seating_pattern W = Ok (fill_pattern W).
Proof.
  intros HW. unfold compute_seating_pattern, fill_pattern.
  pose proof (Z.div_mod W 2 ltac:(lia)) as Hdm.
  pose proof (Z.mod_pos_bound W 2 ltac:(lia)) as Hm.
  assert (0 <= W / 2) by (apply Z.div_pos; lia).
  destruct (W mod 2 =? 0) eqn:E; cbv zeta.
  - apply Z.eqb_eq in E.
    replace (W / 2 - 1) with (Z.of_nat (Z.to_nat (W / 2)) - 1) by lia.
    replace (Z.of_nat (Z.to_nat (W / 2)) - 1 + 1)
      with (W - Z.of_nat (Z.to_nat (W / 2))) by lia.
    rewrite pattern_loop_outward by lia. done.
  - apply Z.eqb_neq in E.
    replace (W / 2 - 1) with (Z.of_nat (Z.to_nat (W / 2)) - 1) by lia.
    replace (W / 2 + 1) with (W - Z.of_nat (Z.to_nat (W / 2))) by lia.
    rewrite pattern_loop_outward by lia. done.
Qed.

Lemma length_fill_pattern (W : Z) :
  0 <= W -> length (fill_pattern W) = Z.to_nat W.
Proof.
  intros HW. unfold fill_pattern.
  pose proof (Z.div_mod W 2 ltac:(lia)) as Hdm.
  pose proof (Z.mod_pos_bound W 2 ltac:(lia)) as Hm.
  assert (0 <= W / 2) by (apply Z.div_pos; lia).
  rewrite length_app, length_outward.
  destruct (W mod 2 =? 0) eqn:E; simpl.
  - apply Z.eqb_eq in E. lia.
  - apply Z.eqb_neq in E. lia.
Qed.

Lemma fill_pattern_Permutation (W : Z) :
  0 <= W -> fill_pattern W ≡ₚ seqZ 0 W.
Proof.
  intros HW. unfold fill_pattern.
  pose proof (Z.div_mod W 2 ltac:(lia)) as Hdm.
  pose proof (Z.mod_pos_bound W 2 ltac:(lia)) as Hm.
  assert (0 <= W / 2) by (apply Z.div_pos; lia).
  rewrite outward_Permutation. rewrite Z2Nat.id by done.
  destruct (W mod 2 =? 0) eqn:E; simpl.
  - apply Z.eqb_eq in E.
    replace (W - W / 2) with (0 + W / 2) by lia.
    rewrite <- seqZ_app by lia. by replace (W / 2 + W / 2) with W by lia.
  - apply Z.eqb_neq in E.
    rewrite Permutation_middle.
    replace (W / 2 :: seqZ (W - W / 2) (W / 2)) with (seqZ (0 + W / 2) (W / 2 + 1)).
    + rewrite <- seqZ_app by lia. by replace (W / 2 + (W / 2 + 1)) with W by lia.
    + rewrite seqZ_cons by lia. f_equal. f_equal; lia.
Qed.

(** ** Sorting *)

Section sort_by.
Context {A : Type} (key : A -> Z).

Let key_le (x y : A) : Prop := key x <= key y.

Lemma insert_by_Permutation (x : A) (l : list A) :
  insert_by key x l ≡ₚ x :: l.
Proof.
  induction l as [|y l IH]; simpl; [done|].
  destruct (key x <=? key y); [done|].
  rewrite IH. apply Permutation_swap.
Qed.

Lemma sort_by_cons (x : A) (l : list A) :
  sort_by key (x :: l) = insert_by key x (sort_by key l).
Proof. reflexivity. Qed.

Lemma sort_by_Permutation (l : list A) : sort_by key l ≡ₚ l.
Proof.
  induction l as [|x l IH]; simpl; [done|].
  rewrite insert_by_Permutation. by rewrite IH.
Qed.

Lemma length_sort_by (l : list A) : length (sort_by key l) = length l.
Proof. apply Permutation_length, sort_by_Permutation. Qed.

Lemma insert_by_sorted (x : A) (l : list A) :
  StronglySorted key_le l -> StronglySorted key_le (insert_by key x l).
Proof.
  induction 1 as [|y l Hl IH Hy]; simpl.
  - repeat constructor.
  - destruct (key x <=? key y) eqn:E.
    + apply Z.leb_le in E. constructor; [by constructor|].
      constructor; [done|].
      eapply Forall_impl; [exact Hy|]. unfold key_le. intros; lia.
    + apply Z.leb_gt in E. constructor; [done|].
      rewrite insert_by_Permutation. constructor; [|done].
      unfold key_le. lia.
Qed.

Lemma sort_by_sorted (l : list A) : StronglySorted key_le (sort_by key l).
Proof.
  induction l as [|x l IH]; simpl; [constructor|].
  by apply insert_by_sorted.
Qed.

(** Sorting a list that is already in order leaves it as it is. *)
Lemma sort_by_id (l : list A) :
  StronglySorted key_le l -> sort_by key l = l.
Proof.
  induction 1 as [|x l Hl IH Hx]; simpl; [done|].
  rewrite IH. destruct l as [|y l]; simpl; [done|].
  apply Forall_cons in Hx as [Hxy _]. unfold key_le in Hxy.
  test_is (key x <=? key y) true. done.
Qed.

Lemma fmap_insert_by (x : A) (l : list A) :
  key <$> insert_by key x l = insert_by (fun k => k) (key x) (key <$> l).
Proof.
  induction l as [|y l IH]; [done|].
  rewrite fmap_cons. cbn [insert_by].
  destruct (key x <=? key y); [done|]. by rewrite fmap_cons, IH.
Qed.

Lemma fmap_sort_by (l : list A) :
  key <$> sort_by key l = sort_by (fun k => k) (key <$> l).
Proof.
  induction l as [|x l IH]; [done|].
  rewrite fmap_cons, !sort_by_cons. by rewrite fmap_insert_by, IH.
Qed.
End sort_by.

Lemma seqZ_sorted (m : Z) (n : nat) :
  StronglySorted Z.lt (seqZ m (Z.of_nat n)).
Proof.
  revert m. induction n as [|n IH]; intros m.
  - rewrite seqZ_nil by lia. constructor.
  - rewrite seqZ_cons by lia.
    replace (Z.pred (Z.of_nat (S n))) with (Z.of_nat n) by lia.
    constructor; [apply IH|].
    apply Forall_seqZ. lia.
Qed.

Lemma sorted_lt_le (l : list Z) :
  StronglySorted Z.lt l -> StronglySorted Z.le l.
Proof.
  intros H. rewrite <- (list_fmap_id l).
  eapply StronglySorted_fmap; [|exact H]. simpl. lia.
Qed.

(** A list of integers that is a rearrangement of an ascending list sorts
    to that list. *)
Lemma sort_by_unique (l k : list Z) :
  l ≡ₚ k -> StronglySorted Z.le k -> sort_by (fun x => x) l = k.
Proof.
  intros Hp Hk.
  apply (StronglySorted_unique Z.le); [apply sort_by_sorted | done |].
  by rewrite sort_by_Permutation.
Qed.

(** Claim C1.  For every row capacity [W >= 1] the fill pattern is returned (the
    loop ends), has length [W], and is a rearrangement of the seat positions
    [0, 1, ..., W-1]: sorting it yields exactly that list. *)
Theorem compute_seating_pattern_is_permutation (W : Z) :
  1 <= W ->
  exists pattern : list Z,
    compute_seating_pattern W = Ok pattern /\
    length pattern = Z.to_nat W /\
    pattern ≡ₚ range W /\
    sort_by (fun x => x) pattern = range W.
Proof.
  intros HW. exists (fill_pattern W).
  split; [apply compute_seating_pattern_closed; lia|].
  split; [apply length_fill_pattern; lia|].
  assert (fill_pattern W ≡ₚ range W) as Hp
    by (apply fill_pattern_Permutation; lia).
  split; [done|].
  apply sort_by_unique; [done|].
  apply sorted_lt_le. unfold range.
  rewrite <- (Z2Nat.id W) by lia. apply seqZ_sorted.
Qed.

Lemma compute_seating_pattern_is_permutation_witness :
  1 <= 7 /\
  exists pattern : list Z,
    compute_seating_pattern 7 = Ok pattern /\
    length pattern = 7%nat /\
    pattern ≡ₚ [0; 1; 2; 3; 4; 5; 6] /\
    sort_by (fun x => x) pattern = [0; 1; 2; 3; 4; 5; 6].
Proof.
  split; [lia|]. exact (compute_seating_pattern_is_permutation 7 ltac:(lia)).
Defined.

(** ** The column labels *)

Lemma foldl_append {A B} (f : B -> A) (l : list B) (acc : list A) :
  foldl (fun acc i => acc ++ [f i]) acc l = acc ++ (f <$> l).
Proof.
  revert acc. induction l as [|x l IH]; intros acc; simpl.
  - by rewrite app_nil_r.
  - rewrite IH. by rewrite <- app_assoc.
Qed.

Lemma left_count_eq (W : Z) :
  (if W mod 2 =? 0 then (W / 2, W / 2) else (W / 2 + 1, W / 2))
  = ((W + 1) / 2, W / 2).
Proof.
  pose proof (Z.div_mod W 2 ltac:(lia)) as Hdm.
  pose proof (Z.mod_pos_bound W 2 ltac:(lia)) as Hm.
  destruct (W mod 2 =? 0) eqn:E; f_equal.
  - apply Z.eqb_eq in E. apply (Z.div_unique _ 2 _ 1); lia.
  - apply Z.eqb_neq in E. apply (Z.div_unique _ 2 _ 0); lia.
Qed.

Lemma half_sizes (W : Z) : (W + 1) / 2 + W / 2 = W.
Proof.
  pose proof (left_count_eq W) as H.
  pose proof (Z.div_mod W 2 ltac:(lia)) as Hdm.
  pose proof (Z.mod_pos_bound W 2 ltac:(lia)) as Hm.
  destruct (W mod 2 =? 0) eqn:E; inversion H as [H1].
  - apply Z.eqb_eq in E. lia.
  - apply Z.eqb_neq in E. lia.
Qed.

(** Closed form of the column labels. *)
Lemma generate_column_labels_closed (W : Z) :
  generate_column_labels W =
    ((fun i => format_02d (2 * ((W + 1) / 2) - (2 * i + 1))) <$> range ((W + 1) / 2))
    ++ ((fun i => format_02d (2 * (i + 1))) <$> range (W / 2)).
Proof.
  unfold generate_column_labels. rewrite left_count_eq.
  by rewrite !foldl_append.
Qed.

Lemma length_column_labels (W : Z) :
  0 <= W -> length (generate_column_labels W) = Z.to_nat W.
Proof.
  intros HW. rewrite generate_column_labels_closed.
  rewrite length_app, !length_fmap. unfold range. rewrite !length_seqZ.
  pose proof (half_sizes W).
  assert (0 <= W / 2) by (apply Z.div_pos; lia).
  assert (0 <= (W + 1) / 2) by (apply Z.div_pos; lia). lia.
Qed.

Lemma column_labels_left (W i : Z) :
  0 <= i < (W + 1) / 2 ->
  generate_column_labels W !! Z.to_nat i
  = Some (format_02d (2 * ((W + 1) / 2) - 1 - 2 * i)).
Proof.
  intros Hi. rewrite generate_column_labels_closed.
  rewrite lookup_app_l
    by (rewrite length_fmap; unfold range; rewrite length_seqZ; lia).
  rewrite list_lookup_fmap. unfold range.
  rewrite lookup_seqZ_lt by lia. simpl. do 2 f_equal. lia.
Qed.

Lemma column_labels_right (W i : Z) :
  0 <= W -> 0 <= i < W / 2 ->
  generate_column_labels W !! Z.to_nat ((W + 1) / 2 + i)
  = Some (format_02d (2 + 2 * i)).
Proof.
  intros HW Hi. rewrite generate_column_labels_closed.
  assert (0 <= (W + 1) / 2) by (apply Z.div_pos; lia).
  rewrite lookup_app_r
    by (rewrite length_fmap; unfold range; rewrite length_seqZ; lia).
  rewrite length_fmap. unfold range. rewrite length_seqZ.
  replace (Z.to_nat ((W + 1) / 2 + i) - Z.to_nat ((W + 1) / 2))%nat
    with (Z.to_nat i) by lia.
  rewrite list_lookup_fmap, lookup_seqZ_lt by lia. simpl. do 2 f_equal. lia.
Qed.

(** Every label renders a seat number between 1 and [W]. *)
Lemma column_labels_elem (W : Z) (label : pystr) :
  label ∈ generate_column_labels W ->
  exists n, 1 <= n <= W /\ label = format_02d n.
Proof.
  rewrite generate_column_labels_closed.
  pose proof (Z.mul_div_le (W + 1) 2 ltac:(lia)).
  pose proof (Z.mul_div_le W 2 ltac:(lia)).
  rewrite elem_of_app, !list_elem_of_fmap. unfold range.
  intros [(i & -> & Hi) | (i & -> & Hi)]; apply elem_of_seqZ in Hi;
    eexists; (split; [|reflexivity]); lia.
Qed.

(** *** The [:02d] format *)

Lemma numeral_value_from_acc (u : Decimal.uint) (acc : positive) :
  numeral_value_from (Z.pos acc) (uint_digits u)
  = Some (Z.pos (Pos.of_uint_acc u acc)).
Proof.
  revert acc. induction u; intros acc; cbn [uint_digits numeral_value_from];
    [done | ..];
    (etransitivity; [|apply IHu]); cbn; f_equal; lia.
Qed.

Lemma numeral_value_from_uint (u : Decimal.uint) :
  numeral_value_from 0 (uint_digits u) = Some (Z.of_N (N.of_uint u)).
Proof.
  unfold N.of_uint.
  induction u; cbn [uint_digits numeral_value_from Pos.of_uint];
    [done | exact IHu | ..];
    (etransitivity; [|apply numeral_value_from_acc]); reflexivity.
Qed.

Lemma numeral_value_from_zeros (k : nat) (s : pystr) :
  numeral_value_from 0 (replicate k 48%N ++ s) = numeral_value_from 0 s.
Proof. induction k as [|k IH]; [done|]. exact IH. Qed.

Lemma format_02d_nonneg (n : Z) :
  0 <= n ->
  format_02d n =
    replicate (2 - length (uint_digits (N.to_uint (Z.to_N n)))) 48%N
    ++ uint_digits (N.to_uint (Z.to_N n)).
Proof.
  intros Hn. unfold format_02d.
  test_is (n <? 0) false.
  replace (Z.abs_N n) with (Z.to_N n) by lia.
  reflexivity.
Qed.

Lemma uint_digits_nonempty (n : N) : uint_digits (N.to_uint n) <> [].
Proof.
  intros H.
  pose proof (numeral_value_from_uint (N.to_uint n)) as Hv.
  rewrite DecimalN.Unsigned.of_to, H in Hv. simpl in Hv.
  assert (n = 0%N) as -> by (injection Hv; lia). discriminate H.
Qed.

(** The rendering is a decimal numeral of at least two digits that reads
    back as the number rendered. *)
Lemma format_02d_numeral (n : Z) :
  0 <= n ->
  numeral_value (format_02d n) = Some n /\ (2 <= length (format_02d n))%nat.
Proof.
  intros Hn. rewrite format_02d_nonneg by done.
  set (ds := uint_digits (N.to_uint (Z.to_N n))).
  assert (ds <> []) as Hne by apply uint_digits_nonempty.
  split.
  - assert (numeral_value_from 0 (replicate (2 - length ds) 48%N ++ ds) = Some n)
      as Hv.
    { rewrite numeral_value_from_zeros. subst ds.
      rewrite numeral_value_from_uint, DecimalN.Unsigned.of_to. f_equal. lia. }
    unfold numeral_value.
    destruct (replicate (2 - length ds) 48%N ++ ds) eqn:E; [|done].
    apply app_eq_nil in E as [_ E]. done.
  - rewrite length_app, length_replicate. lia.
Qed.

Lemma format_02d_two_chars (n : Z) :
  0 <= n <= 99 -> length (format_02d n) = 2%nat.
Proof.
  intros Hn.
  assert (Forall (fun n => length (format_02d n) = 2%nat) (seqZ 0 100)) as H.
  { apply (bool_decide_unpack _). vm_compute. exact I. }
  rewrite Forall_seqZ in H. apply H. lia.
Qed.

(** Claim C3 (amended).  For every [W >= 1] there are exactly [W] column labels;
    the first [ceil(W/2)] render the odd numbers [2*leftSize-1], ..., 3, 1 in
    this (strictly decreasing) order, the remaining [floor(W/2)] render the
    even numbers 2, 4, ..., [2*rightSize] in this (strictly increasing)
    order; every label is the decimal numeral of its seat number padded with
    zeros to at least two characters, and has exactly two characters when
    the seat number is below 100 (hence for every label when [W <= 99]). *)
Theorem generate_column_labels_shape (W : Z) :
  1 <= W ->
  let labels := generate_column_labels W in
  let left_size := (W + 1) / 2 in
  let right_size := W / 2 in
  length labels = Z.to_nat W /\
  left_size + right_size = W /\
  (W mod 2 = 0 -> left_size = W / 2) /\
  (forall i, 0 <= i < left_size ->
     labels !! Z.to_nat i = Some (format_02d (2 * left_size - 1 - 2 * i))) /\
  (forall i, 0 <= i < right_size ->
     labels !! Z.to_nat (left_size + i) = Some (format_02d (2 + 2 * i))) /\
  (forall label, label ∈ labels ->
     exists n, 1 <= n <= W /\ label = format_02d n /\
               numeral_value label = Some n /\
               (2 <= length label)%nat /\
               (n <= 99 -> length label = 2%nat)).
Proof.
  intros HW labels left_size right_size. subst labels left_size right_size.
  split; [apply length_column_labels; lia|].
  split; [apply half_sizes|].
  split.
  { intros Hm. pose proof (left_count_eq W) as H.
    apply Z.eqb_eq in Hm. rewrite Hm in H. by inversion H. }
  split; [intros i Hi; by apply column_labels_left|].
  split; [intros i Hi; apply column_labels_right; lia|].
  intros label Hl. apply column_labels_elem in Hl as (n & Hn & ->).
  exists n. split; [done|]. split; [done|].
  destruct (format_02d_numeral n ltac:(lia)) as [Hv Hlen].
  split; [done|]. split; [done|].
  intros Hsmall. apply format_02d_two_chars. lia.
Qed.

Lemma generate_column_labels_shape_witness :
  1 <= 10 /\
  generate_column_labels 10 !! 0%nat = Some (py "09") /\
  generate_column_labels 10 !! 5%nat = Some (py "02").
Proof.
  split; [lia|].
  destruct (generate_column_labels_shape 10 ltac:(lia))
    as (_ & _ & _ & Hl & Hr & _).
  split.
  - exact (Hl 0 ltac:(vm_compute; split; [discriminate | reflexivity])).
  - exact (Hr 0 ltac:(vm_compute; split; [discriminate | reflexivity])).
Defined.

(** Claim C3 as stated fails: with 100 seats per row the last label is "100",
    which has three characters. *)
Lemma generate_column_labels_three_chars :
  generate_column_labels 100 !! 99%nat = Some (py "100") /\
  ~ (forall W label, 1 <= W -> label ∈ generate_column_labels W ->
       length label = 2%nat).
Proof.
  split; [reflexivity|].
  intros H.
  assert (py "100" ∈ generate_column_labels 100) as Hin
    by (apply list_elem_of_lookup; exists 99%nat; reflexivity).
  apply H in Hin; [|lia]. discriminate Hin.
Qed.

(** Claim C9.  For even [W >= 2] and [0 <= k < W], the seat at the [k]-th position
    of the fill pattern carries the label that renders [k + 1]. *)
Theorem label_at_fill_position (W k : Z) :
  2 <= W -> W mod 2 = 0 -> 0 <= k < W ->
  exists (pattern : list Z) (seat : Z),
    compute_seating_pattern W = Ok pattern /\
    pattern !! Z.to_nat k = Some seat /\
    list_get (generate_column_labels W) seat = Ok (format_02d (k + 1)).
Proof.
  intros HW Heven Hk.
  pose proof (Z.div_mod W 2 ltac:(lia)) as Hdm.
  pose proof (left_count_eq W) as Hl.
  rewrite Heven in Hl. simpl in Hl. inversion Hl as [Hleft]. clear Hl.
  pose proof (Z.div_mod k 2 ltac:(lia)) as Hkdm.
  pose proof (Z.mod_pos_bound k 2 ltac:(lia)) as Hkm.
  assert (0 <= k / 2) by (apply Z.div_pos; lia).
  destruct (outward_lookup W (Z.to_nat (W / 2)) (Z.to_nat (k / 2)) ltac:(lia))
    as [Hl Hr].
  assert (forall seat, 0 <= seat < W ->
            generate_column_labels W !! Z.to_nat seat = Some (format_02d (k + 1)) ->
            list_get (generate_column_labels W) seat = Ok (format_02d (k + 1)))
    as Hget.
  { intros seat Hs Hlook. unfold list_get.
    rewrite length_column_labels by lia. rewrite Z2Nat.id by lia.
    test_is (seat <? 0) false.
    test_is (0 <=? seat) true.
    test_is (seat <? W) true.
    simpl. by rewrite Hlook. }
  exists (fill_pattern W).
  assert (fill_pattern W = outward W (Z.to_nat (W / 2))) as Hfp.
  { unfold fill_pattern. by rewrite Heven. }
  destruct (decide (k mod 2 = 0)) as [Hk0 | Hk1].
  - exists (W / 2 - 1 - k / 2).
    split; [apply compute_seating_pattern_closed; lia|].
    split.
    + rewrite Hfp. replace (Z.to_nat k) with (2 * Z.to_nat (k / 2))%nat by lia.
      rewrite Hl. f_equal. lia.
    + apply Hget; [lia|].
      rewrite column_labels_left by lia. do 2 f_equal. lia.
  - exists (W / 2 + k / 2).
    split; [apply compute_seating_pattern_closed; lia|].
    split.
    + rewrite Hfp.
      replace (Z.to_nat k) with (2 * Z.to_nat (k / 2) + 1)%nat by lia.
      rewrite Hr. f_equal. lia.
    + apply Hget; [lia|].
      rewrite Hleft at 1.
      rewrite column_labels_right by lia. do 2 f_equal. lia.
Qed.

Lemma label_at_fill_position_witness :
  2 <= 10 /\ 10 mod 2 = 0 /\ 0 <= 6 < 10 /\
  exists (pattern : list Z) (seat : Z),
    compute_seating_pattern 10 = Ok pattern /\
    pattern !! 6%nat = Some seat /\
    list_get (generate_column_labels 10) seat = Ok (py "07").
Proof.
  split; [lia|]. split; [reflexivity|]. split; [lia|].
  exact (label_at_fill_position 10 6 ltac:(lia) eq_refl ltac:(lia)).
Defined.

(** The example of the docstring of [generate_column_labels]. *)
Example generate_column_labels_docstring :
  generate_column_labels 10
  = [py "09"; py "07"; py "05"; py "03"; py "01";
     py "02"; py "04"; py "06"; py "08"; py "10"].
Proof. reflexivity. Qed.

(** Scenario B of the specification: a single seat. *)
Example scenario_single_seat :
  compute_seating_pattern 1 = Ok [0] /\ generate_column_labels 1 = [py "01"].
Proof. split; reflexivity. Qed.

(** ** The seating chart: auxiliary facts *)

Lemma num_to_chinese_ok (n : Z) :
  n <= 109 -> exists t, num_to_chinese n = Ok t.
Proof.
  intros Hn.
  destruct (decide (1 <= n <= 10)) as [H|H].
  - eexists. by apply num_to_chinese_atomic.
  - rewrite num_to_chinese_compound by lia.
    destruct (1 <? n / 10) eqn:E.
    + apply Z.ltb_lt in E.
      assert (n / 10 <= 10).
      { apply Z.lt_succ_r. apply Z.div_lt_upper_bound; lia. }
      rewrite dict_get_digit by lia. by eexists.
    + by eexists.
Qed.

Lemma row_label_of_ok (n : Z) :
  n <= 109 -> row_label_of n = Ok (row_label n).
Proof.
  intros Hn. unfold row_label, row_label_of.
  destruct (num_to_chinese_ok n Hn) as [t ->]. reflexivity.
Qed.

Lemma row_label_of_fails (n : Z) :
  110 <= n -> row_label_of n = Raise KeyError.
Proof.
  intros Hn. unfold row_label_of.
  rewrite num_to_chinese_fails by lia. reflexivity.
Qed.

Lemma for_each_app {A S} (body : S -> A -> res S) (s : S) (l1 l2 : list A) :
  for_each body s (l1 ++ l2) = (s' ← for_each body s l1; for_each body s' l2).
Proof.
  revert s. induction l1 as [|x l1 IH]; intros s; simpl; [done|].
  destruct (body s x) as [s'|e]; simpl; [apply IH | done].
Qed.

Lemma mapM_ok {A B} (f : A -> res B) (g : A -> B) (l : list A) :
  Forall (fun x => f x = Ok (g x)) l -> mapM f l = Ok (g <$> l).
Proof.
  induction 1 as [|x l Hx Hl IH]; [done|].
  cbn [mapM]. rewrite Hx. simpl. rewrite IH. reflexivity.
Qed.

Lemma slice_nat {A} (l : list A) (a b : nat) :
  slice l (Z.of_nat a) (Z.of_nat b) = take (b - a) (drop a l).
Proof.
  unfold slice, clip_index.
  test_is (Z.of_nat a <? 0) false.
  test_is (Z.of_nat b <? 0) false.
  destruct (decide (a <= length l)%nat) as [Ha|Ha].
  - replace (Z.to_nat (Z.max 0 (Z.min (Z.of_nat (length l)) (Z.of_nat a))))
      with a by lia.
    destruct (decide (b <= length l)%nat) as [Hb|Hb].
    + f_equal. lia.
    + rewrite !take_ge; [done | rewrite length_drop; lia..].
  - rewrite !drop_ge by lia. by rewrite !take_nil.
Qed.

Lemma row_slice (s : list person) (W r : nat) :
  slice s (Z.of_nat r * Z.of_nat W)
        (Z.min (Z.of_nat r * Z.of_nat W + Z.of_nat W) (Z.of_nat (length s)))
  = take W (drop (r * W) s).
Proof.
  replace (Z.of_nat r * Z.of_nat W) with (Z.of_nat (r * W)) by lia.
  replace (Z.min (Z.of_nat (r * W) + Z.of_nat W) (Z.of_nat (length s)))
    with (Z.of_nat (Nat.min (r * W + W) (length s))) by lia.
  rewrite slice_nat.
  destruct (decide (r * W + W <= length s)%nat).
  - f_equal. lia.
  - rewrite !take_ge; [done | rewrite length_drop; lia..].
Qed.

(** ** The seating chart: the two loops *)

Lemma fill_pattern_bounds (W : Z) (x : Z) :
  0 <= W -> x ∈ fill_pattern W -> 0 <= x < W.
Proof.
  intros HW Hx. rewrite (fill_pattern_Permutation W HW) in Hx.
  apply elem_of_seqZ in Hx. lia.
Qed.

Lemma fill_pattern_NoDup (W : Z) : 0 <= W -> NoDup (fill_pattern W).
Proof.
  intros HW. rewrite (fill_pattern_Permutation W HW). apply NoDup_seqZ.
Qed.

Section seating.
Variable W : nat.
Hypothesis W_pos : (1 <= W)%nat.

Let pattern : list Z := fill_pattern (Z.of_nat W).
Let col_labels : list pystr := generate_column_labels (Z.of_nat W).

Lemma pattern_lookup (i : nat) :
  (i < W)%nat ->
  pattern !! i = Some (pattern !!! i) /\ 0 <= pattern !!! i < Z.of_nat W.
Proof.
  intros Hi.
  assert (length pattern = W) as Hlen
    by (subst pattern; rewrite length_fill_pattern; lia).
  assert (pattern !! i = Some (pattern !!! i)) as Hl
    by (apply list_lookup_lookup_total_lt; lia).
  split; [done|].
  apply (fill_pattern_bounds (Z.of_nat W)); [lia|].
  eapply list_elem_of_lookup_2, Hl.
Qed.

Lemma col_labels_get (seat : Z) :
  0 <= seat < Z.of_nat W ->
  list_get col_labels seat = Ok (col_labels !!! Z.to_nat seat).
Proof.
  intros Hs. unfold list_get.
  assert (length col_labels = W) as Hlen
    by (subst col_labels; rewrite length_column_labels; lia).
  rewrite Hlen.
  test_is (seat <? 0) false.
  test_is (0 <=? seat) true.
  test_is (seat <? Z.of_nat W) true.
  simpl. rewrite list_lookup_lookup_total_lt by lia. done.
Qed.

Lemma row_seats_set (row_seats : list cell) (seat : Z) (v : cell) :
  length row_seats = W -> 0 <= seat < Z.of_nat W ->
  list_set row_seats seat v = Ok (<[Z.to_nat seat := v]> row_seats).
Proof.
  intros Hlen Hs. unfold list_set. rewrite Hlen.
  test_is (seat <? 0) false.
  test_is (0 <=? seat) true.
  test_is (seat <? Z.of_nat W) true.
  done.
Qed.

Lemma length_fill_seats (i : nat) (persons : list person) (rs : list cell) :
  length (fill_seats pattern i persons rs) = length rs.
Proof.
  revert i rs. induction persons as [|x ps IH]; intros i rs; simpl; [done|].
  by rewrite IH, length_insert.
Qed.

(** The inner loop over the attendees of one row. *)
Lemma seat_persons_ok (r : nat) (persons : list person) :
  forall (i : nat) (rs : list cell) (asg : list assignment),
    (r < 109)%nat ->
    length rs = W ->
    (i + length persons <= W)%nat ->
    for_each (seat_person pattern col_labels (Z.of_nat r)) (rs, asg)
             (enumerate_from i persons)
    = Ok (fill_seats pattern i persons rs,
          asg ++ imap (fun k x => placement W (r * W + i + k) x) persons).
Proof.
  induction persons as [|x ps IH]; intros i rs asg Hr Hlen Hi.
  - simpl. by rewrite app_nil_r.
  - cbn [enumerate_from for_each seat_person length] in *.
    destruct (pattern_lookup i ltac:(lia)) as [Hl Hb].
    rewrite Hl. rewrite row_seats_set by done.
    rewrite row_label_of_ok by lia.
    rewrite col_labels_get by done. cbn [mbind res_bind].
    rewrite IH; [|done | by rewrite length_insert | lia].
    cbn [fill_seats imap]. rewrite <- app_assoc. cbn [app].
    f_equal. f_equal. f_equal. f_equal.
    + unfold placement. f_equal.
      * rewrite Nat.add_0_r. do 2 f_equal.
        rewrite Nat.div_add_l by lia. rewrite Nat.div_small by lia. lia.
      * rewrite Nat.add_0_r.
        replace (r * W + i)%nat with (i + r * W)%nat by lia.
        rewrite Nat.Div0.mod_add. by rewrite Nat.mod_small by lia.
    + apply imap_ext. intros k y _. simpl. f_equal. lia.
Qed.

(** If any attendee sits in a row whose number is 110 or more, the
    numeral formatter raises. *)
Lemma seat_persons_fails (r : nat) (x : person) (ps : list person)
    (rs : list cell) (asg : list assignment) :
  (109 <= r)%nat ->
  length rs = W ->
  for_each (seat_person pattern col_labels (Z.of_nat r)) (rs, asg)
           (enumerate_from 0 (x :: ps))
  = Raise KeyError.
Proof.
  intros Hr Hlen. cbn [enumerate_from for_each seat_person].
  destruct (pattern_lookup 0 ltac:(lia)) as [Hl Hb].
  rewrite Hl. rewrite row_seats_set by done.
  rewrite row_label_of_fails by lia. reflexivity.
Qed.

Variable s : list person.

(** [R] is the number of rows: the ceiling of [length s / W]. *)
Variable R : nat.
Hypothesis R_ceil : (length s <= R * W < length s + W)%nat.

Let body := seat_row s (Z.of_nat W) (Z.of_nat (length s)) pattern col_labels.

Lemma seat_row_ok (r : nat) (chart : list (list cell)) (asg : list assignment) :
  (r < 109)%nat ->
  body (chart, asg) (Z.of_nat r)
  = Ok (chart ++ [chart_row W s r],
        asg ++ imap (fun k x => placement W (r * W + k) x)
                    (take W (drop (r * W) s))).
Proof.
  intros Hr. subst body. unfold seat_row. cbv zeta.
  rewrite row_slice, Nat2Z.id.
  rewrite seat_persons_ok;
    [| done | by rewrite length_replicate
     | rewrite length_take, length_drop; lia ].
  cbn [mbind res_bind]. unfold chart_row. do 3 f_equal.
  apply imap_ext. intros k y _. simpl. f_equal. lia.
Qed.

(** The outer loop over the first [n] rows. *)
Lemma seat_rows_ok (n : nat) :
  (n <= R)%nat -> (n <= 109)%nat ->
  for_each body ([], []) (range (Z.of_nat n))
  = Ok (chart_row W s <$> seq 0 n, imap (placement W) (take (n * W) s)).
Proof.
  unfold range. induction n as [|n IH]; intros HR Hn; [done|].
  rewrite seqZ_S, for_each_app, IH by lia. cbn [mbind res_bind for_each].
  rewrite Z.add_0_l, seat_row_ok by lia. cbn [mbind res_bind].
  f_equal. f_equal.
  - by rewrite seq_S, fmap_app.
  - replace (S n * W)%nat with (n * W + W)%nat by lia.
    rewrite <- take_take_drop, imap_app. f_equal.
    rewrite length_take.
    assert (n * W < length s)%nat by nia.
    apply imap_ext. intros k y _. simpl. f_equal. lia.
Qed.

Lemma seat_rows_fails :
  (110 <= R)%nat ->
  for_each body ([], []) (range (Z.of_nat R)) = Raise KeyError.
Proof.
  intros HR. unfold range.
  replace (Z.of_nat R) with (Z.of_nat 109 + (1 + Z.of_nat (R - 110))) by lia.
  rewrite seqZ_app by lia. rewrite for_each_app.
  pose proof (seat_rows_ok 109 ltac:(lia) ltac:(lia)) as H109.
  unfold range in H109. rewrite H109. cbn [mbind res_bind].
  rewrite seqZ_cons by lia. cbn [for_each].
  replace (body _ (0 + Z.of_nat 109))
  with (Raise (A := list (list cell) * list assignment) KeyError); [done|].
  symmetry. subst body. unfold seat_row. cbv zeta.
  rewrite Z.add_0_l, row_slice.
  assert (109 * W < length s)%nat by nia.
  destruct (take W (drop (109 * W) s)) as [|x ps] eqn:E.
  - apply (f_equal length) in E. rewrite length_take, length_drop in E.
    simpl in E. lia.
  - rewrite seat_persons_fails;
      [done | lia | by rewrite length_replicate, Nat2Z.id].
Qed.
End seating.

(** ** The seating chart: what the function returns *)

Lemma seqZ_seq (n : nat) : seqZ 0 (Z.of_nat n) = Z.of_nat <$> seq 0 n.
Proof.
  unfold seqZ. rewrite Nat2Z.id. apply list_fmap_ext. intros i x _. lia.
Qed.

Lemma ceil_div_nat (N W R : nat) :
  (1 <= W)%nat -> (N <= R * W < N + W)%nat ->
  ceil_div (Z.of_nat N) (Z.of_nat W) = Ok (Z.of_nat R).
Proof.
  intros HW HR. unfold ceil_div.
  test_is (Z.of_nat W =? 0) false.
  f_equal.
  rewrite <- (Z.div_unique (- Z.of_nat N) (Z.of_nat W) (- Z.of_nat R)
                          (Z.of_nat (R * W - N))); lia.
Qed.

Lemma sorted_by_key {A} (key : A -> Z) (l : list A) :
  StronglySorted Z.le (key <$> l) ->
  StronglySorted (fun x y => key x <= key y) l.
Proof.
  induction l as [|x l IH]; [constructor|].
  rewrite fmap_cons. intros [Hl Hx]%StronglySorted_inv.
  constructor; [by apply IH|].
  by rewrite Forall_fmap in Hx.
Qed.

Lemma sorted_key_fmap {A} (key : A -> Z) (l : list A) :
  StronglySorted (fun x y => key x <= key y) l ->
  StronglySorted Z.le (key <$> l).
Proof. apply StronglySorted_fmap. done. Qed.

Lemma fmap_id_imap_placement (W : nat) (s : list person) :
  A_PERSONID <$> imap (placement W) s = PERSONID <$> s.
Proof.
  apply list_eq. intros i.
  rewrite !list_lookup_fmap, list_lookup_imap.
  by destruct (s !! i).
Qed.

(** The placement records come out in identifier order, so the final sort
    leaves them as they are. *)
Lemma sort_placements (W : nat) (df : list person) :
  sort_by A_PERSONID (imap (placement W) (sort_by PERSONID df))
  = imap (placement W) (sort_by PERSONID df).
Proof.
  apply sort_by_id, sorted_by_key.
  rewrite fmap_id_imap_placement.
  apply sorted_key_fmap, sort_by_sorted.
Qed.

(** With at most 109 rows the function returns. *)
Lemma generate_seating_chart_body_ok (df : list person) (W R : nat) :
  (1 <= W)%nat -> (length df <= R * W < length df + W)%nat -> (R <= 109)%nat ->
  generate_seating_chart_body df (Z.of_nat W) = Ok (final_locals W R df).
Proof.
  intros HW HR H109. unfold generate_seating_chart_body. cbv zeta.
  pose proof (length_sort_by PERSONID df) as Hlen.
  rewrite (ceil_div_nat _ _ R) by (rewrite ?Hlen; done).
  cbn [mbind res_bind].
  rewrite compute_seating_pattern_closed by lia. cbn [mbind res_bind].
  rewrite (seat_rows_ok W HW _ R) by (rewrite ?Hlen; done || lia).
  cbn [mbind res_bind].
  rewrite (mapM_ok _ (fun i => row_label (i + 1))).
  2:{ unfold range. apply Forall_seqZ. intros i Hi.
      apply row_label_of_ok. lia. }
  cbn [mbind res_bind]. unfold final_locals.
  rewrite take_ge by lia.
  rewrite sort_placements.
  f_equal. f_equal. f_equal.
  unfold range. rewrite seqZ_seq, <- !fmap_reverse, <- list_fmap_compose.
  rewrite zip_with_fmap_l, zip_with_fmap_r, zip_with_diag. done.
Qed.

(** With 110 rows or more the numeral formatter raises and nothing is
    returned. *)
Lemma generate_seating_chart_body_fails (df : list person) (W R : nat) :
  (1 <= W)%nat -> (length df <= R * W < length df + W)%nat -> (110 <= R)%nat ->
  generate_seating_chart_body df (Z.of_nat W) = Raise KeyError.
Proof.
  intros HW HR H110. unfold generate_seating_chart_body. cbv zeta.
  pose proof (length_sort_by PERSONID df) as Hlen.
  rewrite (ceil_div_nat _ _ R) by (rewrite ?Hlen; done).
  cbn [mbind res_bind].
  rewrite compute_seating_pattern_closed by lia. cbn [mbind res_bind].
  rewrite (seat_rows_fails W HW _ R) by (rewrite ?Hlen; done || lia).
  done.
Qed.

Lemma row_count_spec (N W : Z) :
  0 <= N -> 1 <= W ->
  0 <= row_count N W /\ N <= row_count N W * W < N + W.
Proof.
  intros HN HW. unfold row_count.
  pose proof (Z.div_mod (N + W - 1) W ltac:(lia)) as Hdm.
  pose proof (Z.mod_pos_bound (N + W - 1) W ltac:(lia)) as Hm.
  split; [apply Z.div_pos; lia | lia].
Qed.

(** ** The seating chart: the cells of a row *)

Section row_cells.
Variable W : nat.
Hypothesis W_pos : (1 <= W)%nat.

Let pattern : list Z := fill_pattern (Z.of_nat W).

Lemma pattern_inj (i k : nat) :
  (i < W)%nat -> (k < W)%nat ->
  Z.to_nat (pattern !!! i) = Z.to_nat (pattern !!! k) -> i = k.
Proof.
  intros Hi Hk Heq.
  destruct (pattern_lookup W W_pos i Hi) as [Hli Hbi].
  destruct (pattern_lookup W W_pos k Hk) as [Hlk Hbk].
  fold pattern in Hli, Hbi, Hlk, Hbk.
  assert (pattern !!! i = pattern !!! k) as Heq' by lia.
  rewrite <- Heq' in Hlk.
  eapply NoDup_lookup; [|exact Hli|exact Hlk].
  apply fill_pattern_NoDup. lia.
Qed.

Lemma fill_seats_lookup (persons : list person) :
  forall (i : nat) (rs : list cell) (k : nat),
    length rs = W -> (i + length persons <= W)%nat -> (k < W)%nat ->
    fill_seats pattern i persons rs !! Z.to_nat (pattern !!! k)
    = if decide (i <= k < i + length persons)%nat
      then NAME <$> persons !! (k - i)%nat
      else rs !! Z.to_nat (pattern !!! k).
Proof.
  induction persons as [|x ps IH]; intros i rs k Hlen Hi Hk.
  - simpl. case_decide; [lia | done].
  - cbn [fill_seats length] in *.
    rewrite IH; [|by rewrite length_insert | lia | done].
    destruct (decide (k = i)) as [->|Hne].
    + rewrite decide_False by lia. rewrite decide_True by lia.
      rewrite Nat.sub_diag. simpl.
      apply list_lookup_insert_eq.
      destruct (pattern_lookup W W_pos i Hk) as [_ Hb]. fold pattern in Hb.
      lia.
    + case_decide as H1.
      * rewrite decide_True by lia.
        by replace (k - i)%nat with (S (k - S i)) by lia.
      * rewrite decide_False by lia.
        apply list_lookup_insert_ne. intros Heq.
        apply Hne. symmetry. by apply pattern_inj; [lia | done |].
Qed.

Lemma chart_row_length (s : list person) (r : nat) :
  length (chart_row W s r) = W.
Proof.
  unfold chart_row. by rewrite (length_fill_seats W), length_replicate.
Qed.

(** The cell of row [r] at the [k]-th position of the fill pattern. *)
Lemma chart_row_lookup (s : list person) (r k : nat) :
  (k < W)%nat ->
  chart_row W s r !! Z.to_nat (pattern !!! k)
  = if decide (r * W + k < length s)%nat
    then NAME <$> s !! (r * W + k)%nat
    else Some (Text []).
Proof.
  intros Hk. unfold chart_row. fold pattern.
  rewrite fill_seats_lookup;
    [| by rewrite length_replicate
     | rewrite length_take, length_drop; lia | done].
  rewrite length_take, length_drop, Nat.sub_0_r.
  destruct (pattern_lookup W W_pos k Hk) as [_ Hb]. fold pattern in Hb.
  case_decide as H1.
  - rewrite decide_True by lia.
    rewrite lookup_take_lt by lia. by rewrite lookup_drop.
  - rewrite decide_False by lia.
    apply lookup_replicate_2. lia.
Qed.
End row_cells.

(** ** The seating chart: the claims *)

Lemma sorted_le_NoDup_lt (l : list Z) :
  StronglySorted Z.le l -> NoDup l -> StronglySorted Z.lt l.
Proof.
  induction 1 as [|x l Hl IH Hx]; intros Hnd; [constructor|].
  apply NoDup_cons in Hnd as [Hnin Hnd].
  constructor; [by apply IH|].
  rewrite Forall_forall in Hx. apply Forall_forall. intros y Hy.
  specialize (Hx y Hy). assert (x <> y) by (intros ->; done). lia.
Qed.

(** The function returns whenever the chart has at most 109 rows. *)
Lemma generate_seating_chart_body_returns (df : list person) (W : Z) :
  1 <= W -> row_count (Z.of_nat (length df)) W <= 109 ->
  generate_seating_chart_body df W
  = Ok (final_locals (Z.to_nat W)
                     (Z.to_nat (row_count (Z.of_nat (length df)) W)) df).
Proof.
  intros HW HR.
  destruct (row_count_spec (Z.of_nat (length df)) W ltac:(lia) HW) as [H0 Hc].
  rewrite <- (Z2Nat.id W) at 1 by lia.
  apply generate_seating_chart_body_ok; [lia | nia | lia].
Qed.

(** With 110 rows or more it raises: the limit above is exact. *)
Lemma generate_seating_chart_body_raises (df : list person) (W : Z) :
  1 <= W -> 110 <= row_count (Z.of_nat (length df)) W ->
  generate_seating_chart_body df W = Raise KeyError.
Proof.
  intros HW HR.
  destruct (row_count_spec (Z.of_nat (length df)) W ltac:(lia) HW) as [H0 Hc].
  rewrite <- (Z2Nat.id W) at 1 by lia.
  apply (generate_seating_chart_body_fails _ _
           (Z.to_nat (row_count (Z.of_nat (length df)) W))); [lia | nia | lia].
Qed.

Lemma generate_seating_chart_of_body (df : list person) (W : Z) (l : locals) :
  generate_seating_chart_body df W = Ok l ->
  generate_seating_chart df W = Ok (seating_df l, explanation_text l).
Proof. intros H. unfold generate_seating_chart. by rewrite H. Qed.

(** Claim C2.  Scenario A: capacity 10 and twelve attendees with the
    identifiers 1..12 in ascending order, whatever their names.  The fill
    pattern is [4,5,3,6,2,7,1,8,0,9]; the first row holds the first ten
    attendees and fills the seats 0..9; the second row holds the 11th and
    the 12th attendee at the seats 4 and 5 and the empty string elsewhere;
    the grid has two rows, and in the displayed table the second row comes
    first and the first row last. *)
Theorem scenario_ten_seats_twelve_attendees (name : Z -> cell) :
  compute_seating_pattern 10 = Ok [4; 5; 3; 6; 2; 7; 1; 8; 0; 9] /\
  exists l : locals,
    generate_seating_chart_body (attendees name 12) 10 = Ok l /\
    generate_seating_chart (attendees name 12) 10
      = Ok (seating_df l, explanation_text l) /\
    seating_chart l =
      [ [name 9; name 7; name 5; name 3; name 1;
         name 2; name 4; name 6; name 8; name 10];
        [Text []; Text []; Text []; Text []; name 11;
         name 12; Text []; Text []; Text []; Text []] ] /\
    table (seating_df l) =
      [ [Text (py "第二排");
         Text []; Text []; Text []; Text []; name 11;
         name 12; Text []; Text []; Text []; Text []];
        [Text (py "第一排");
         name 9; name 7; name 5; name 3; name 1;
         name 2; name 4; name 6; name 8; name 10] ].
Proof.
  split; [reflexivity|].
  eexists. split; [reflexivity|]. split; [reflexivity|].
  split; reflexivity.
Qed.

(** Claim C6 (amended).  For [N] attendees and a capacity [W >= 1] such
    that [rows = ceil(N / W)] is at most 109, the function returns a chart
    of exactly [rows] logical rows.  The fill pattern visits every seat of
    a row exactly once; in the last row the seats at its first
    [N - W * (rows - 1)] positions hold the names of the attendees of that
    row, in order, and the other seats hold the empty string; in every
    earlier row the seats at all [W] positions hold an attendee's name. *)
Theorem rows_and_last_row_fill (df : list person) (W : Z) :
  1 <= W ->
  let N := Z.of_nat (length df) in
  let rows := row_count N W in
  rows <= 109 ->
  exists (l : locals) (pattern : list Z),
    generate_seating_chart_body df W = Ok l /\
    generate_seating_chart df W = Ok (seating_df l, explanation_text l) /\
    compute_seating_pattern W = Ok pattern /\
    pattern ≡ₚ range W /\
    N <= rows * W < N + W /\
    Z.of_nat (length (seating_chart l)) = rows /\
    Z.of_nat (length (table (seating_df l))) = rows /\
    forall (j k : nat) (row : list cell) (seat : Z),
      seating_chart l !! j = Some row -> pattern !! k = Some seat ->
      Z.of_nat (length row) = W /\ 0 <= seat < W /\
      let filled :=
        if decide (Z.of_nat j + 1 = rows) then N - W * (rows - 1) else W in
      (Z.of_nat k < filled ->
         exists x, df_sorted l !! (j * Z.to_nat W + k)%nat = Some x /\
                   row !! Z.to_nat seat = Some (NAME x)) /\
      (filled <= Z.of_nat k -> row !! Z.to_nat seat = Some (Text [])).
Proof.
  intros HW N rows Hrows.
  destruct (row_count_spec N W ltac:(lia) HW) as [H0 Hc]. fold rows in H0, Hc.
  pose proof (generate_seating_chart_body_returns df W HW Hrows) as Hb.
  fold N rows in Hb.
  eexists. exists (fill_pattern W).
  split; [exact Hb|].
  split; [by apply generate_seating_chart_of_body|].
  split; [apply compute_seating_pattern_closed; lia|].
  split; [apply fill_pattern_Permutation; lia|].
  split; [done|]. cbn [final_locals seating_chart seating_df table df_sorted].
  split; [rewrite length_fmap, length_seq; lia|].
  split; [rewrite length_fmap, length_reverse, length_seq; lia|].
  intros j k row seat Hrow Hseat.
  set (w := Z.to_nat W) in *. assert (1 <= w)%nat as Hw by lia.
  assert (Z.of_nat w = W) as HwW by lia.
  apply list_lookup_fmap_Some in Hrow as (j' & -> & Hj).
  apply lookup_seq in Hj as [-> Hj]. simpl in Hj |- *.
  assert (k < w)%nat as Hk.
  { apply lookup_lt_Some in Hseat. rewrite length_fill_pattern in Hseat; lia. }
  destruct (pattern_lookup w Hw k Hk) as [Hl Hbnd]. rewrite HwW in Hl, Hbnd.
  rewrite Hseat in Hl. injection Hl as ->.
  split; [rewrite (chart_row_length w); lia|].
  split; [done|].
  pose proof (chart_row_lookup w Hw (sort_by PERSONID df) j k Hk) as Hcell.
  rewrite HwW, length_sort_by in Hcell.
  assert (Z.of_nat (length df) = N) as HN by done.
  split.
  - intros Hfill. rewrite decide_True in Hcell by (case_decide; nia).
    destruct (sort_by PERSONID df !! (j * w + k)%nat) as [x|] eqn:Ex.
    + exists x. by split.
    + apply lookup_ge_None in Ex. rewrite length_sort_by in Ex.
      case_decide; nia.
  - intros Hfill. rewrite decide_False in Hcell by (case_decide; nia). done.
Qed.

Lemma rows_and_last_row_fill_witness :
  1 <= 2 /\ row_count 3 2 <= 109 /\
  exists l : locals,
    generate_seating_chart_body (attendees (fun i => Text (format_02d i)) 3) 2
      = Ok l /\
    Z.of_nat (length (seating_chart l)) = 2.
Proof.
  split; [lia|]. split; [vm_compute; discriminate|].
  destruct (rows_and_last_row_fill
              (attendees (fun i => Text (format_02d i)) 3) 2 ltac:(lia)
              ltac:(vm_compute; discriminate))
    as (l & p & Hb & _ & _ & _ & _ & Hlen & _).
  exists l. split; [exact Hb | exact Hlen].
Defined.

(** Claim C6 as stated fails: 110 attendees with one seat per row need 110 rows,
    and the function raises instead of producing them. *)
Lemma no_rows_for_110_attendees :
  generate_seating_chart (attendees (fun i => Text (format_02d i)) 110) 1
    = Raise KeyError /\
  ~ (forall (df : list person) (W : Z), 1 <= W ->
       exists l, generate_seating_chart_body df W = Ok l /\
                 Z.of_nat (length (seating_chart l))
                 = row_count (Z.of_nat (length df)) W).
Proof.
  assert (generate_seating_chart_body
            (attendees (fun i => Text (format_02d i)) 110) 1 = Raise KeyError)
    as Hb by (vm_compute; reflexivity).
  split.
  - unfold generate_seating_chart. by rewrite Hb.
  - intros H.
    destruct (H (attendees (fun i => Text (format_02d i)) 110) 1 ltac:(lia))
      as (l & Hl & _).
    rewrite Hb in Hl. discriminate Hl.
Qed.

(** Claim C7 (amended).  For a table with distinct identifiers, a capacity
    [W >= 1] and at most 109 rows, the function returns; the placement list
    is strictly ascending by identifier (whatever seats were assigned),
    holds exactly the identifiers of the input, and the explanation has one
    line per attendee, joined by newlines. *)
Theorem explanation_ascending_by_id (df : list person) (W : Z) :
  1 <= W ->
  row_count (Z.of_nat (length df)) W <= 109 ->
  NoDup (PERSONID <$> df) ->
  exists l : locals,
    generate_seating_chart_body df W = Ok l /\
    generate_seating_chart df W = Ok (seating_df l, explanation_text l) /\
    StronglySorted Z.lt (A_PERSONID <$> assignments l) /\
    A_PERSONID <$> assignments l ≡ₚ PERSONID <$> df /\
    explanation_lines l = explanation_line <$> assignments l /\
    explanation_text l = join [10%N] (explanation_lines l) /\
    length (explanation_lines l) = length df.
Proof.
  intros HW Hrows Hnd.
  pose proof (generate_seating_chart_body_returns df W HW Hrows) as Hb.
  eexists. split; [exact Hb|].
  split; [by apply generate_seating_chart_of_body|].
  cbn [final_locals assignments explanation_lines explanation_text].
  rewrite fmap_id_imap_placement.
  assert (PERSONID <$> sort_by PERSONID df ≡ₚ PERSONID <$> df) as Hp
    by (apply fmap_Permutation, sort_by_Permutation).
  split.
  { apply sorted_le_NoDup_lt; [apply sorted_key_fmap, sort_by_sorted|].
    by rewrite Hp. }
  split; [done|]. split; [done|]. split; [done|].
  by rewrite length_fmap, length_imap, length_sort_by.
Qed.

Lemma explanation_ascending_by_id_witness :
  1 <= 2 /\ row_count 3 2 <= 109 /\
  NoDup [7; 3; 5] /\
  exists l : locals,
    generate_seating_chart_body
      [ {| PERSONID := 7; NAME := Text (py "G") |};
        {| PERSONID := 3; NAME := Missing |};
        {| PERSONID := 5; NAME := Text (py "E") |} ] 2 = Ok l /\
    StronglySorted Z.lt (A_PERSONID <$> assignments l).
Proof.
  split; [lia|]. split; [vm_compute; discriminate|].
  assert (NoDup [7; 3; 5]) as Hnd by (apply (bool_decide_unpack _); vm_compute; exact I).
  split; [exact Hnd|].
  destruct (explanation_ascending_by_id
              [ {| PERSONID := 7; NAME := Text (py "G") |};
                {| PERSONID := 3; NAME := Missing |};
                {| PERSONID := 5; NAME := Text (py "E") |} ] 2 ltac:(lia)
              ltac:(vm_compute; discriminate) Hnd)
    as (l & Hb & _ & Hs & _).
  exists l. split; [exact Hb | exact Hs].
Defined.

(** Claim C7 as stated fails: 220 attendees with distinct identifiers and two
    seats per row need 110 rows; the function raises and returns no
    placement list. *)
Lemma no_placement_list_for_220_attendees :
  NoDup (PERSONID <$> attendees (fun _ => Missing) 220) /\
  generate_seating_chart (attendees (fun _ => Missing) 220) 2 = Raise KeyError /\
  ~ (forall (df : list person) (W : Z), 1 <= W -> NoDup (PERSONID <$> df) ->
       exists l, generate_seating_chart_body df W = Ok l /\
                 length (explanation_lines l) = length df).
Proof.
  assert (NoDup (PERSONID <$> attendees (fun _ => Missing) 220)) as Hnd.
  { unfold attendees. rewrite <- list_fmap_compose.
    rewrite (list_fmap_ext _ id (seqZ 1 220)) by done.
    rewrite list_fmap_id. apply NoDup_seqZ. }
  assert (generate_seating_chart_body (attendees (fun _ => Missing) 220) 2
          = Raise KeyError) as Hb by (vm_compute; reflexivity).
  split; [exact Hnd|]. split.
  - unfold generate_seating_chart. by rewrite Hb.
  - intros H.
    destruct (H (attendees (fun _ => Missing) 220) 2 ltac:(lia) Hnd)
      as (l & Hl & _).
    rewrite Hb in Hl. discriminate Hl.
Qed.

Lemma explanation_line_missing (item : assignment) :
  A_NAME item = Missing ->
  explanation_line item
  = py "预留空位" ++ py " 在" ++ ROW item ++ py "第" ++ SEAT item ++ py "座位。".
Proof. intros H. unfold explanation_line. rewrite H. reflexivity. Qed.

Lemma explanation_line_blank (item : assignment) (t : pystr) :
  A_NAME item = Text t -> strip t = [] ->
  explanation_line item
  = py "预留空位" ++ py " 在" ++ ROW item ++ py "第" ++ SEAT item ++ py "座位。".
Proof.
  intros H Ht. unfold explanation_line. rewrite H. cbn [isna str orb].
  rewrite Ht. reflexivity.
Qed.

Lemma explanation_line_nan (item : assignment) (t : pystr) :
  A_NAME item = Text t -> lower (strip t) = py "nan" ->
  explanation_line item
  = py "预留空位" ++ py " 在" ++ ROW item ++ py "第" ++ SEAT item ++ py "座位。".
Proof.
  intros H Ht. unfold explanation_line. rewrite H. cbn [isna str orb].
  rewrite Ht. reflexivity.
Qed.

(** A name made of white space only, the empty name included, strips to
    the empty string. *)
Lemma lstrip_blank (t : pystr) :
  Forall (fun c => is_space c = true) t -> lstrip t = [].
Proof.
  induction 1 as [|c t Hc Ht IH]; [done|].
  cbn [lstrip]. by rewrite Hc.
Qed.

Lemma strip_blank (t : pystr) :
  Forall (fun c => is_space c = true) t -> strip t = [].
Proof.
  intros Ht. unfold strip, rstrip. by rewrite (lstrip_blank t Ht).
Qed.

(** Claim C8.  The attendee at position [i] of the identifier order, blank
    name or not, gets the row [i / W + 1] and the seat at position
    [i mod W] of the fill pattern: neither depends on the name, and the
    identifier order is that of the identifiers alone.  The placement
    record and the grid cell keep the NAME value as it was read; only in
    the explanation, the line of an attendee whose name is missing, empty
    or made of white space only starts with the reserved-seat text. *)
Theorem blank_name_seated_like_any_other (df : list person) (W : Z) :
  1 <= W ->
  row_count (Z.of_nat (length df)) W <= 109 ->
  exists (l : locals) (pattern : list Z),
    generate_seating_chart_body df W = Ok l /\
    compute_seating_pattern W = Ok pattern /\
    df_sorted l ≡ₚ df /\
    PERSONID <$> df_sorted l = sort_by (fun id => id) (PERSONID <$> df) /\
    explanation_lines l = explanation_line <$> assignments l /\
    forall (i : nat) (x : person),
      df_sorted l !! i = Some x ->
      exists (item : assignment) (seat : Z) (row : list cell),
        assignments l !! i = Some item /\
        A_PERSONID item = PERSONID x /\
        A_NAME item = NAME x /\
        row_label_of (Z.of_nat i / W + 1) = Ok (ROW item) /\
        pattern !! (i mod Z.to_nat W)%nat = Some seat /\
        list_get (generate_column_labels W) seat = Ok (SEAT item) /\
        seating_chart l !! (i / Z.to_nat W)%nat = Some row /\
        row !! Z.to_nat seat = Some (NAME x) /\
        (NAME x = Missing
         \/ (exists t, NAME x = Text t /\ Forall (fun c => is_space c = true) t) ->
         explanation_lines l !! i
         = Some (py "预留空位" ++ py " 在" ++ ROW item ++ py "第" ++ SEAT item
                   ++ py "座位。")).
Proof.
  intros HW Hrows.
  destruct (row_count_spec (Z.of_nat (length df)) W ltac:(lia) HW) as [H0 Hc].
  pose proof (generate_seating_chart_body_returns df W HW Hrows) as Hb.
  set (rows := row_count (Z.of_nat (length df)) W) in *.
  assert (exists w, (1 <= w)%nat /\ Z.of_nat w = W) as (w & Hw & <-)
    by (exists (Z.to_nat W); lia).
  rewrite Nat2Z.id in *.
  eexists. exists (fill_pattern (Z.of_nat w)).
  split; [exact Hb|].
  split; [apply compute_seating_pattern_closed; lia|].
  cbn [final_locals df_sorted assignments explanation_lines seating_chart].
  split; [apply sort_by_Permutation|].
  split; [apply fmap_sort_by|]. split; [done|].
  intros i x Hx.
  assert (i < length df)%nat as Hi
    by (apply lookup_lt_Some in Hx; by rewrite length_sort_by in Hx).
  assert (i mod w < w)%nat as Hk by (apply Nat.mod_upper_bound; lia).
  assert (i / w < Z.to_nat rows)%nat as Hr
    by (apply Nat.Div0.div_lt_upper_bound; nia).
  destruct (pattern_lookup w Hw (i mod w)%nat Hk) as [Hl Hbnd].
  exists (placement w i x), (fill_pattern (Z.of_nat w) !!! (i mod w)%nat),
         (chart_row w (sort_by PERSONID df) (i / w)).
  split; [by rewrite list_lookup_imap, Hx|].
  split; [done|]. split; [done|].
  split.
  { cbn [placement ROW]. rewrite <- Nat2Z.inj_div.
    apply row_label_of_ok. lia. }
  split; [done|].
  split; [by apply (col_labels_get w Hw)|].
  split.
  { rewrite list_lookup_fmap, lookup_seq_lt by lia. done. }
  split.
  { pose proof (chart_row_lookup w Hw (sort_by PERSONID df)
                  (i / w) (i mod w) Hk) as Hcell.
    assert (i / w * w + i mod w = i)%nat as Hdm
      by (pose proof (Nat.div_mod_eq i w); lia).
    rewrite Hdm, length_sort_by, decide_True, Hx in Hcell by lia.
    exact Hcell. }
  intros Hreserved.
  rewrite list_lookup_fmap, list_lookup_imap, Hx. cbn [fmap option_fmap option_map].
  f_equal. destruct Hreserved as [Hm | (t & Ht & Hs)].
  - by apply explanation_line_missing.
  - apply (explanation_line_blank _ t); [done | by apply strip_blank].
Qed.

Lemma blank_name_seated_like_any_other_witness :
  1 <= 3 /\ row_count 2 3 <= 109 /\
  exists l : locals,
    generate_seating_chart_body
      [ {| PERSONID := 2; NAME := Text (py "  ") |};
        {| PERSONID := 1; NAME := Text (py "Li") |} ] 3 = Ok l /\
    A_NAME <$> assignments l = [Text (py "Li"); Text (py "  ")] /\
    explanation_lines l !! 1%nat = Some (py "预留空位 在第一排第03座位。").
Proof.
  split; [lia|]. split; [vm_compute; discriminate|].
  destruct (blank_name_seated_like_any_other
              [ {| PERSONID := 2; NAME := Text (py "  ") |};
                {| PERSONID := 1; NAME := Text (py "Li") |} ] 3 ltac:(lia)
              ltac:(vm_compute; discriminate))
    as (l & p & Hb & _ & _ & _ & _ & Hall).
  exists l. split; [exact Hb|].
  vm_compute in Hb. injection Hb as <-.
  split; [reflexivity|].
  destruct (Hall 1%nat {| PERSONID := 2; NAME := Text (py "  ") |} eq_refl)
    as (item & seat & row & Hitem & _ & _ & _ & _ & _ & _ & _ & Hline).
  injection Hitem as <-.
  rewrite Hline; [reflexivity|].
  right. exists (py "  "). split; [reflexivity|].
  repeat constructor.
Defined.

(** Claim C10.  A name whose stripped, lower-cased text is "nan" is
    rendered as the reserved-seat text, exactly as a missing name is. *)
Theorem nan_text_rendered_as_reserved (item : assignment) (s : pystr) :
  A_NAME item = Text s ->
  lower (strip s) = py "nan" ->
  explanation_line item
  = py "预留空位" ++ py " 在" ++ ROW item ++ py "第" ++ SEAT item ++ py "座位。"
  /\ explanation_line item
     = explanation_line {| A_PERSONID := A_PERSONID item; A_NAME := Missing;
                           ROW := ROW item; SEAT := SEAT item |}.
Proof.
  intros Hn Hs. split.
  - by apply (explanation_line_nan _ s).
  - rewrite (explanation_line_nan _ s) by done.
    by rewrite explanation_line_missing.
Qed.

Lemma nan_text_rendered_as_reserved_witness :
  lower (strip (py " NaN ")) = py "nan" /\
  explanation_line {| A_PERSONID := 1; A_NAME := Text (py " NaN ");
                      ROW := py "第一排"; SEAT := py "01" |}
  = py "预留空位 在第一排第01座位。".
Proof.
  split; [reflexivity|].
  exact (proj1 (nan_text_rendered_as_reserved
                  {| A_PERSONID := 1; A_NAME := Text (py " NaN ");
                     ROW := py "第一排"; SEAT := py "01" |}
                  (py " NaN ") eq_refl eq_refl)).
Defined.

Example nan_name_end_to_end :
  generate_seating_chart [ {| PERSONID := 1; NAME := Text (py "NaN") |} ] 10
  = Ok ({| columns := py "排号" :: generate_column_labels 10;
           table := [ [Text (py "第一排"); Text []; Text []; Text []; Text [];
                       Text (py "NaN"); Text []; Text []; Text []; Text [];
                       Text []] ] |},
        py "预留空位 在第一排第01座位。").
Proof. reflexivity. Qed.

(** Scenario D of the specification: no attendees, a header and no rows. *)
Example scenario_no_attendees :
  generate_seating_chart [] 10
  = Ok ({| columns := py "排号" :: generate_column_labels 10; table := [] |}, []).
Proof. reflexivity. Qed.

(** ** Further properties of the fill pattern *)

Lemma fill_pattern_lookup (W k : Z) :
  0 <= k < W -> fill_pattern W !! Z.to_nat k = Some (seat_at W k).
Proof.
  intros Hk. unfold fill_pattern, seat_at.
  destruct (W mod 2 =? 0) eqn:EW.
  - apply Z.eqb_eq in EW. cbn [app].
    destruct (outward_lookup W (Z.to_nat (W / 2)) (Z.to_nat (k / 2))
                ltac:(Z.div_mod_to_equations; lia)) as [Hl Hr].
    destruct (k mod 2 =? 0) eqn:Ek.
    + apply Z.eqb_eq in Ek.
      replace (Z.to_nat k) with (2 * Z.to_nat (k / 2))%nat
        by (Z.div_mod_to_equations; lia).
      rewrite Hl. f_equal. clear Hl Hr. Z.div_mod_to_equations; lia.
    + apply Z.eqb_neq in Ek.
      replace (Z.to_nat k) with (2 * Z.to_nat (k / 2) + 1)%nat
        by (Z.div_mod_to_equations; lia).
      rewrite Hr. f_equal. clear Hl Hr. Z.div_mod_to_equations; lia.
  - apply Z.eqb_neq in EW.
    destruct (decide (k = 0)) as [->|Hk0].
    + simpl. change (0 / 2) with 0. by rewrite Z.add_0_r.
    + replace (Z.to_nat k) with (S (Z.to_nat (k - 1))) by lia. cbn [app].
      change (outward W (Z.to_nat (W / 2)) !! Z.to_nat (k - 1)
              = Some (if k mod 2 =? 0 then W / 2 + k / 2 else W / 2 - (k + 1) / 2)).
      destruct (outward_lookup W (Z.to_nat (W / 2)) (Z.to_nat ((k - 1) / 2))
                  ltac:(Z.div_mod_to_equations; lia)) as [Hl Hr].
      destruct (k mod 2 =? 0) eqn:Ek.
      * apply Z.eqb_eq in Ek.
        replace (Z.to_nat (k - 1)) with (2 * Z.to_nat ((k - 1) / 2) + 1)%nat
          by (Z.div_mod_to_equations; lia).
        rewrite Hr. f_equal. clear Hl Hr. Z.div_mod_to_equations; lia.
      * apply Z.eqb_neq in Ek.
        replace (Z.to_nat (k - 1)) with (2 * Z.to_nat ((k - 1) / 2))%nat
          by (Z.div_mod_to_equations; lia).
        rewrite Hl. f_equal. clear Hl Hr. Z.div_mod_to_equations; lia.
Qed.

Lemma seat_at_centred (W r k : Z) :
  0 <= k < r -> r <= W ->
  (W - r) / 2 <= seat_at W k < (W - r) / 2 + r.
Proof.
  intros Hk Hr. unfold seat_at.
  destruct (W mod 2 =? 0) eqn:EW; destruct (k mod 2 =? 0) eqn:Ek;
    rewrite ?Z.eqb_eq, ?Z.eqb_neq in *; Z.div_mod_to_equations; lia.
Qed.

Lemma take_fill_pattern (W r : Z) :
  0 <= r <= W ->
  take (Z.to_nat r) (fill_pattern W) ≡ₚ seqZ ((W - r) / 2) r.
Proof.
  intros Hr. apply submseteq_length_Permutation.
  - apply NoDup_submseteq.
    + apply (sublist_NoDup _ (fill_pattern W));
        [apply fill_pattern_NoDup; lia | apply sublist_take].
    + intros x (i & Hi & Hlt)%elem_of_take.
      pose proof (fill_pattern_lookup W (Z.of_nat i) ltac:(lia)) as Hl.
      rewrite Nat2Z.id, Hi in Hl. injection Hl as ->.
      apply elem_of_seqZ. apply seat_at_centred; lia.
  - rewrite length_take, length_seqZ, length_fill_pattern; lia.
Qed.

(** The seat filled [k]-th, for every capacity [W >= 1]: the loop alternates
    between the left and the right of the centre, starting on the left (on
    the centre seat itself when [W] is odd). *)
Theorem compute_seating_pattern_formula (W k : Z) :
  1 <= W -> 0 <= k < W ->
  exists pattern : list Z,
    compute_seating_pattern W = Ok pattern /\
    pattern !! Z.to_nat k = Some (seat_at W k).
Proof.
  intros HW Hk. exists (fill_pattern W).
  split; [apply compute_seating_pattern_closed; lia|].
  by apply fill_pattern_lookup.
Qed.

Lemma compute_seating_pattern_formula_witness :
  1 <= 7 /\ 0 <= 3 < 7 /\
  exists pattern : list Z,
    compute_seating_pattern 7 = Ok pattern /\ pattern !! 3%nat = Some 1.
Proof.
  split; [lia|]. split; [lia|].
  exact (compute_seating_pattern_formula 7 3 ltac:(lia) ltac:(lia)).
Defined.

(** However many attendees a row holds, they sit side by side: the first
    [r] seats of the fill pattern are the [r] seats from [(W - r) / 2] on,
    so that the free seats are split evenly between the two ends, the odd
    one going to the right end. *)
Theorem first_seats_contiguous (W r : Z) :
  1 <= W -> 0 <= r <= W ->
  exists pattern : list Z,
    compute_seating_pattern W = Ok pattern /\
    take (Z.to_nat r) pattern ≡ₚ seqZ ((W - r) / 2) r.
Proof.
  intros HW Hr. exists (fill_pattern W).
  split; [apply compute_seating_pattern_closed; lia|].
  by apply take_fill_pattern.
Qed.

Lemma first_seats_contiguous_witness :
  1 <= 10 /\ 0 <= 3 <= 10 /\
  exists pattern : list Z,
    compute_seating_pattern 10 = Ok pattern /\
    take 3 pattern ≡ₚ [3; 4; 5].
Proof.
  split; [lia|]. split; [lia|].
  exact (first_seats_contiguous 10 3 ltac:(lia) ltac:(lia)).
Defined.

(** The loop ends at once when there is no seat on either side. *)
Lemma pattern_loop_exit (fuel : nat) (W left right : Z) (toggle : bool)
    (pattern : list Z) :
  left < 0 -> W <= right ->
  pattern_loop (S fuel) W left right toggle pattern = Ok pattern.
Proof.
  intros Hl Hr. cbn [pattern_loop].
  test_is (0 <=? left) false. test_is (right <? W) false. reflexivity.
Qed.

(** Without a positive capacity the loop body never runs: the pattern is
    empty for an even [W <= 0], and for an odd one it holds the single
    index [W // 2], which is negative. *)
Theorem compute_seating_pattern_nonpositive (W : Z) :
  W <= 0 ->
  compute_seating_pattern W = Ok (if W mod 2 =? 0 then [] else [W / 2]).
Proof.
  intros HW. unfold compute_seating_pattern. cbv zeta.
  assert (W <= W / 2 <= 0) by (Z.div_mod_to_equations; lia).
  destruct (W mod 2 =? 0) eqn:E; apply pattern_loop_exit; lia.
Qed.

Lemma compute_seating_pattern_nonpositive_witness :
  -3 <= 0 /\ compute_seating_pattern (-3) = Ok [-2].
Proof.
  split; [lia|]. exact (compute_seating_pattern_nonpositive (-3) ltac:(lia)).
Defined.

(** ** Further properties of the column labels and of the numerals *)

Lemma format_02d_inj (n m : Z) :
  0 <= n -> 0 <= m -> format_02d n = format_02d m -> n = m.
Proof.
  intros Hn Hm Heq.
  destruct (format_02d_numeral n Hn) as [Hvn _].
  destruct (format_02d_numeral m Hm) as [Hvm _].
  rewrite Heq, Hvm in Hvn. by injection Hvn.
Qed.

(** The numbers behind the labels, left to right. *)
Lemma label_numbers_Permutation (W : Z) :
  ((fun i => 2 * ((W + 1) / 2) - (2 * i + 1)) <$> range ((W + 1) / 2))
  ++ ((fun i => 2 * (i + 1)) <$> range (W / 2))
  ≡ₚ seqZ 1 W.
Proof.
  unfold range. apply submseteq_length_Permutation.
  - apply NoDup_submseteq.
    + apply NoDup_app. split; [|split].
      * apply NoDup_fmap_2; [intros x y; lia | apply NoDup_seqZ].
      * intros x (i & -> & _)%list_elem_of_fmap (j & Hj & _)%list_elem_of_fmap.
        lia.
      * apply NoDup_fmap_2; [intros x y; lia | apply NoDup_seqZ].
    + intros x. rewrite elem_of_app, !list_elem_of_fmap.
      intros [(i & -> & Hi) | (i & -> & Hi)]; apply elem_of_seqZ in Hi;
        apply elem_of_seqZ; Z.div_mod_to_equations; lia.
  - rewrite length_app, !length_fmap, !length_seqZ.
    Z.div_mod_to_equations; lia.
Qed.

Lemma generate_column_labels_numbers (W : Z) :
  generate_column_labels W =
    format_02d <$>
      (((fun i => 2 * ((W + 1) / 2) - (2 * i + 1)) <$> range ((W + 1) / 2))
       ++ ((fun i => 2 * (i + 1)) <$> range (W / 2))).
Proof.
  rewrite generate_column_labels_closed, fmap_app, <- !list_fmap_compose.
  done.
Qed.

Lemma generate_column_labels_NoDup (W : Z) : NoDup (generate_column_labels W).
Proof.
  rewrite generate_column_labels_numbers.
  apply NoDup_fmap_2_strong.
  - intros x y Hx Hy. rewrite (label_numbers_Permutation W) in Hx, Hy.
    apply elem_of_seqZ in Hx, Hy. apply format_02d_inj; lia.
  - rewrite label_numbers_Permutation. apply NoDup_seqZ.
Qed.

(** The labels of a row are the renderings of the seat numbers 1..[W], each
    exactly once: no two seats of a row carry the same label.  (For
    [W <= 0] there is no label.) *)
Theorem column_labels_are_the_seat_numbers (W : Z) :
  generate_column_labels W ≡ₚ format_02d <$> seqZ 1 W /\
  NoDup (generate_column_labels W).
Proof.
  split; [|apply generate_column_labels_NoDup].
  rewrite generate_column_labels_numbers.
  by rewrite label_numbers_Permutation.
Qed.

Lemma column_labels_get (W seat : Z) :
  0 <= seat < W ->
  list_get (generate_column_labels W) seat
  = Ok (generate_column_labels W !!! Z.to_nat seat).
Proof.
  intros Hs. rewrite <- (Z2Nat.id W) by lia.
  apply (col_labels_get (Z.to_nat W)); lia.
Qed.

(** For an odd capacity the seat numbers do not follow the filling order:
    the first attendee of a row gets seat 1, then the attendee at an odd
    position [k] gets seat [k + 2] and the one at an even position [k]
    gets seat [k]. *)
Theorem label_at_fill_position_odd (W k : Z) :
  1 <= W -> W mod 2 = 1 -> 0 <= k < W ->
  exists (pattern : list Z) (seat : Z),
    compute_seating_pattern W = Ok pattern /\
    pattern !! Z.to_nat k = Some seat /\
    list_get (generate_column_labels W) seat
    = Ok (format_02d (if k =? 0 then 1 else if k mod 2 =? 0 then k else k + 2)).
Proof.
  intros HW Hodd Hk. exists (fill_pattern W), (seat_at W k).
  split; [apply compute_seating_pattern_closed; lia|].
  split; [by apply fill_pattern_lookup|].
  pose proof (seat_at_centred W W k ltac:(lia) ltac:(lia)) as Hb.
  rewrite Z.sub_diag in Hb. change (0 / 2) with 0 in Hb.
  rewrite column_labels_get by lia. f_equal.
  apply list_lookup_total_correct.
  unfold seat_at in *. rewrite Hodd in *. cbn [Z.eqb Pos.eqb] in *.
  destruct (k mod 2 =? 0) eqn:Ek.
  - apply Z.eqb_eq in Ek. destruct (k =? 0) eqn:Ek0.
    + apply Z.eqb_eq in Ek0. subst k. change (0 / 2) with 0.
      rewrite Z.add_0_r, column_labels_left
        by (Z.div_mod_to_equations; lia).
      do 2 f_equal. Z.div_mod_to_equations; lia.
    + apply Z.eqb_neq in Ek0.
      replace (W / 2 + k / 2) with ((W + 1) / 2 + (k / 2 - 1))
        by (Z.div_mod_to_equations; lia).
      rewrite column_labels_right by (Z.div_mod_to_equations; lia).
      do 2 f_equal. Z.div_mod_to_equations; lia.
  - apply Z.eqb_neq in Ek.
    assert (k <> 0) by (intros ->; done).
    test_is (k =? 0) false.
    rewrite column_labels_left by (Z.div_mod_to_equations; lia).
    do 2 f_equal. Z.div_mod_to_equations; lia.
Qed.

Lemma label_at_fill_position_odd_witness :
  1 <= 7 /\ 7 mod 2 = 1 /\ 0 <= 3 < 7 /\
  exists (pattern : list Z) (seat : Z),
    compute_seating_pattern 7 = Ok pattern /\
    pattern !! 3%nat = Some seat /\
    list_get (generate_column_labels 7) seat = Ok (py "05").
Proof.
  split; [lia|]. split; [reflexivity|]. split; [lia|].
  exact (label_at_fill_position_odd 7 3 ltac:(lia) eq_refl ltac:(lia)).
Defined.

#[global] Instance exn_eq_dec : EqDecision exn.
Proof. solve_decision. Defined.

#[global] Instance res_eq_dec {A} `{EqDecision A} : EqDecision (res A).
Proof. solve_decision. Defined.

Lemma numerals_NoDup : NoDup (num_to_chinese <$> seqZ 1 109).
Proof. apply (bool_decide_unpack _). vm_compute. exact I. Qed.

(** The numerals of the rows 1..109, which are the rows the formatter can
    label, are pairwise different. *)
Theorem num_to_chinese_inj (n m : Z) :
  1 <= n <= 109 -> 1 <= m <= 109 ->
  num_to_chinese n = num_to_chinese m -> n = m.
Proof.
  intros Hn Hm Heq.
  assert (Z.to_nat (n - 1) = Z.to_nat (m - 1)); [|lia].
  apply (NoDup_lookup _ _ _ (num_to_chinese n) numerals_NoDup).
  - rewrite list_lookup_fmap, lookup_seqZ_lt by lia. simpl. f_equal. f_equal. lia.
  - rewrite list_lookup_fmap, lookup_seqZ_lt by lia. simpl. rewrite Heq.
    f_equal. f_equal. lia.
Qed.

Lemma num_to_chinese_inj_witness :
  1 <= 21 <= 109 /\ 1 <= 21 <= 109 /\
  num_to_chinese 21 = num_to_chinese 21 /\ 21 = 21.
Proof.
  split; [lia|]. split; [lia|]. split; [reflexivity|].
  exact (num_to_chinese_inj 21 21 ltac:(lia) ltac:(lia) eq_refl).
Defined.

(** ** Further properties of the seating chart *)

Lemma compute_seating_pattern_negative (W : Z) :
  W < 0 -> exists pattern, compute_seating_pattern W = Ok pattern.
Proof.
  intros HW. unfold compute_seating_pattern. cbv zeta.
  assert (W <= W / 2 <= 0) by (Z.div_mod_to_equations; lia).
  destruct (W mod 2 =? 0); eexists; apply pattern_loop_exit; lia.
Qed.

Lemma generate_column_labels_nonpositive (W : Z) :
  W <= 0 -> generate_column_labels W = [].
Proof.
  intros HW. rewrite generate_column_labels_closed. unfold range.
  rewrite !seqZ_nil by (Z.div_mod_to_equations; lia). done.
Qed.

(** A capacity of zero makes the row count a division by zero; a negative
    capacity gives no row at all: the function returns a table with the
    header of the label column alone and an empty explanation, whatever
    the attendees. *)
Theorem generate_seating_chart_nonpositive (df : list person) (W : Z) :
  W <= 0 ->
  generate_seating_chart df W =
    if W =? 0 then Raise ZeroDivisionError
    else Ok ({| columns := [py "排号"]; table := [] |}, []).
Proof.
  intros HW. unfold generate_seating_chart, generate_seating_chart_body, ceil_div.
  cbv zeta. destruct (W =? 0) eqn:E; [done|]. apply Z.eqb_neq in E.
  cbn [mbind res_bind].
  destruct (compute_seating_pattern_negative W ltac:(lia)) as [pattern ->].
  cbn [mbind res_bind].
  assert (- (- Z.of_nat (length (sort_by PERSONID df)) / W) <= 0) as Hrows.
  { pose proof (Nat2Z.is_nonneg (length (sort_by PERSONID df))).
    Z.div_mod_to_equations; nia. }
  unfold range. rewrite !seqZ_nil by done.
  rewrite generate_column_labels_nonpositive by lia. reflexivity.
Qed.

Lemma generate_seating_chart_nonpositive_witness :
  -2 <= 0 /\
  generate_seating_chart [ {| PERSONID := 1; NAME := Text (py "Li") |} ] (-2)
  = Ok ({| columns := [py "排号"]; table := [] |}, []).
Proof.
  split; [lia|].
  exact (generate_seating_chart_nonpositive
           [ {| PERSONID := 1; NAME := Text (py "Li") |} ] (-2) ltac:(lia)).
Defined.

(** For a capacity [W >= 1] the function returns exactly when the chart has
    at most 109 rows; with more rows it raises the [KeyError] of the
    numeral formatter. *)
Theorem generate_seating_chart_returns_iff (df : list person) (W : Z) :
  1 <= W ->
  (row_count (Z.of_nat (length df)) W <= 109 /\
   exists r, generate_seating_chart df W = Ok r)
  \/ (110 <= row_count (Z.of_nat (length df)) W /\
      generate_seating_chart df W = Raise KeyError).
Proof.
  intros HW.
  destruct (decide (row_count (Z.of_nat (length df)) W <= 109)) as [H|H].
  - left. split; [done|]. eexists.
    apply generate_seating_chart_of_body.
    by apply generate_seating_chart_body_returns.
  - right. split; [lia|]. unfold generate_seating_chart.
    rewrite generate_seating_chart_body_raises by lia. done.
Qed.

Lemma generate_seating_chart_returns_iff_witness :
  1 <= 1 /\
  generate_seating_chart (attendees (fun _ => Missing) 109) 1 <> Raise KeyError /\
  generate_seating_chart (attendees (fun _ => Missing) 110) 1 = Raise KeyError.
Proof.
  split; [lia|]. split.
  - destruct (generate_seating_chart_returns_iff
                (attendees (fun _ => Missing) 109) 1 ltac:(lia))
      as [[_ [r ->]] | [Hc _]]; [discriminate|].
    vm_compute in Hc. by destruct Hc.
  - destruct (generate_seating_chart_returns_iff
                (attendees (fun _ => Missing) 110) 1 ltac:(lia))
      as [[Hc _] | [_ Hr]]; [|exact Hr].
    vm_compute in Hc. by destruct Hc.
Defined.

(** The displayed table has [W + 1] columns and lists the logical rows from
    the last to the first: its row [t] is the label of row number
    [rows - t] followed by the [W] cells of that logical row. *)
Theorem display_table_rows (df : list person) (W : Z) (t : nat) :
  1 <= W ->
  let rows := row_count (Z.of_nat (length df)) W in
  rows <= 109 ->
  Z.of_nat t < rows ->
  exists (l : locals) (label : pystr) (cells : list cell),
    generate_seating_chart_body df W = Ok l /\
    Z.of_nat (length (columns (seating_df l))) = W + 1 /\
    table (seating_df l) !! t = Some (Text label :: cells) /\
    row_label_of (rows - Z.of_nat t) = Ok label /\
    seating_chart l !! Z.to_nat (rows - 1 - Z.of_nat t) = Some cells /\
    Z.of_nat (length cells) = W.
Proof.
  intros HW rows Hrows Ht.
  pose proof (generate_seating_chart_body_returns df W HW Hrows) as Hb.
  fold rows in Hb.
  destruct (row_count_spec (Z.of_nat (length df)) W ltac:(lia) HW) as [H0 _].
  fold rows in H0.
  eexists. exists (row_label (rows - Z.of_nat t)),
    (chart_row (Z.to_nat W) (sort_by PERSONID df)
               (Z.to_nat (rows - 1 - Z.of_nat t))).
  split; [exact Hb|].
  cbn [final_locals seating_df columns table seating_chart].
  split; [rewrite length_cons, length_column_labels; lia|].
  split.
  { rewrite list_lookup_fmap, reverse_lookup by (rewrite length_seq; lia).
    rewrite length_seq, lookup_seq_lt by lia. simpl.
    replace (Z.of_nat (Z.to_nat rows - S t) + 1) with (rows - Z.of_nat t) by lia.
    by replace (Z.to_nat rows - S t)%nat
      with (Z.to_nat (rows - 1 - Z.of_nat t)) by lia. }
  split; [apply row_label_of_ok; lia|].
  split; [rewrite list_lookup_fmap, lookup_seq_lt by lia; done|].
  rewrite (chart_row_length (Z.to_nat W)); lia.
Qed.

Lemma display_table_rows_witness :
  1 <= 2 /\ row_count 3 2 <= 109 /\ 0 < row_count 3 2 /\
  exists (l : locals) (cells : list cell),
    generate_seating_chart_body (attendees (fun _ => Missing) 3) 2 = Ok l /\
    table (seating_df l) !! 0%nat = Some (Text (py "第二排") :: cells).
Proof.
  split; [lia|]. split; [vm_compute; discriminate|].
  split; [reflexivity|].
  destruct (display_table_rows (attendees (fun _ => Missing) 3) 2 0
              ltac:(lia) ltac:(vm_compute; discriminate) eq_refl)
    as (l & label & cells & Hb & _ & Ht & Hl & _).
  exists l, cells. split; [exact Hb|].
  vm_compute in Hl. injection Hl as <-. exact Ht.
Defined.

Section conservation.
Variable W : nat.
Hypothesis W_pos : (1 <= W)%nat.


End conservation.



Lemma NoDup_fmap_inj_on {A B} (f : A -> B) (l : list A) (x y : A) :
  NoDup (f <$> l) -> x ∈ l -> y ∈ l -> f x = f y -> x = y.
Proof.
  intros Hnd (i & Hi)%list_elem_of_lookup (j & Hj)%list_elem_of_lookup Heq.
  assert (i = j) as ->.
  { apply (NoDup_lookup _ _ _ (f x) Hnd).
    - by rewrite list_lookup_fmap, Hi.
    - by rewrite list_lookup_fmap, Hj, Heq. }
  rewrite Hi in Hj. by injection Hj.
Qed.

(** With distinct keys the sorted list does not depend on the input order. *)
Lemma sort_by_Permutation_eq {A} (key : A -> Z) (l k : list A) :
  l ≡ₚ k -> NoDup (key <$> l) -> sort_by key l = sort_by key k.
Proof.
  intros Hp Hnd.
  apply (StronglySorted_unique_strong (fun x y => key x <= key y)).
  - intros x y Hx Hy Hxy Hyx.
    rewrite sort_by_Permutation in Hx, Hy. rewrite <- Hp in Hy.
    apply (NoDup_fmap_inj_on key l); [done..|lia].
  - apply sort_by_sorted.
  - apply sort_by_sorted.
  - by rewrite !sort_by_Permutation.
Qed.

(** With distinct identifiers the result does not depend on the order of
    the rows of the input table. *)
Theorem input_order_irrelevant (df df' : list person) (W : Z) :
  df ≡ₚ df' -> NoDup (PERSONID <$> df) ->
  generate_seating_chart df W = generate_seating_chart df' W.
Proof.
  intros Hp Hnd.
  unfold generate_seating_chart, generate_seating_chart_body.
  by rewrite (sort_by_Permutation_eq PERSONID df df' Hp Hnd).
Qed.

Lemma input_order_irrelevant_witness :
  [ {| PERSONID := 2; NAME := Missing |}; {| PERSONID := 1; NAME := Missing |} ]
  ≡ₚ [ {| PERSONID := 1; NAME := Missing |}; {| PERSONID := 2; NAME := Missing |} ]
  /\ NoDup [2; 1] /\
  generate_seating_chart
    [ {| PERSONID := 2; NAME := Missing |}; {| PERSONID := 1; NAME := Missing |} ] 4
  = generate_seating_chart
    [ {| PERSONID := 1; NAME := Missing |}; {| PERSONID := 2; NAME := Missing |} ] 4.
Proof.
  assert (NoDup [2; 1]) as Hnd
    by (apply (bool_decide_unpack _); vm_compute; exact I).
  split; [apply Permutation_swap|]. split; [exact Hnd|].
  exact (input_order_irrelevant
           [ {| PERSONID := 2; NAME := Missing |};
             {| PERSONID := 1; NAME := Missing |} ]
           [ {| PERSONID := 1; NAME := Missing |};
             {| PERSONID := 2; NAME := Missing |} ] 4
           (Permutation_swap _ _ _) Hnd).
Defined.

Lemma row_labels_NoDup : NoDup (row_label <$> seqZ 1 109).
Proof. apply (bool_decide_unpack _). vm_compute. exact I. Qed.

Lemma row_label_inj (n m : Z) :
  1 <= n <= 109 -> 1 <= m <= 109 -> row_label n = row_label m -> n = m.
Proof.
  intros Hn Hm Heq.
  assert (Z.to_nat (n - 1) = Z.to_nat (m - 1)); [|lia].
  apply (NoDup_lookup _ _ _ (row_label n) row_labels_NoDup).
  - rewrite list_lookup_fmap, lookup_seqZ_lt by lia. simpl. f_equal. f_equal. lia.
  - rewrite list_lookup_fmap, lookup_seqZ_lt by lia. simpl. rewrite Heq.
    f_equal. f_equal. lia.
Qed.

(** Two attendees never get the same row label and seat label. *)
Theorem no_two_attendees_share_a_seat (df : list person) (W : Z) :
  1 <= W ->
  row_count (Z.of_nat (length df)) W <= 109 ->
  exists l : locals,
    generate_seating_chart_body df W = Ok l /\
    forall (i j : nat) (a b : assignment),
      assignments l !! i = Some a -> assignments l !! j = Some b ->
      ROW a = ROW b -> SEAT a = SEAT b -> i = j.
Proof.
  intros HW Hrows.
  destruct (row_count_spec (Z.of_nat (length df)) W ltac:(lia) HW) as [H0 Hc].
  pose proof (generate_seating_chart_body_returns df W HW Hrows) as Hb.
  set (rows := row_count (Z.of_nat (length df)) W) in *.
  assert (exists w, (1 <= w)%nat /\ Z.of_nat w = W) as (w & Hw & <-)
    by (exists (Z.to_nat W); lia).
  rewrite Nat2Z.id in *.
  eexists. split; [exact Hb|]. cbn [final_locals assignments].
  intros i j a b Ha Hb' Hrow Hseat.
  rewrite list_lookup_imap in Ha, Hb'.
  destruct (sort_by PERSONID df !! i) as [x|] eqn:Ex; [|done].
  destruct (sort_by PERSONID df !! j) as [y|] eqn:Ey; [|done].
  injection Ha as <-. injection Hb' as <-.
  apply lookup_lt_Some in Ex, Ey. rewrite length_sort_by in Ex, Ey.
  cbn [placement ROW SEAT] in Hrow, Hseat.
  assert (i / w < Z.to_nat rows)%nat
    by (apply Nat.Div0.div_lt_upper_bound; nia).
  assert (j / w < Z.to_nat rows)%nat
    by (apply Nat.Div0.div_lt_upper_bound; nia).
  apply row_label_inj in Hrow; [|lia..].
  assert (i mod w < w)%nat as Hi by (apply Nat.mod_upper_bound; lia).
  assert (j mod w < w)%nat as Hj by (apply Nat.mod_upper_bound; lia).
  destruct (pattern_lookup w Hw _ Hi) as [_ Hbi].
  destruct (pattern_lookup w Hw _ Hj) as [_ Hbj].
  assert (Z.to_nat (fill_pattern (Z.of_nat w) !!! (i mod w)%nat)
          = Z.to_nat (fill_pattern (Z.of_nat w) !!! (j mod w)%nat)) as Hp.
  { eapply NoDup_lookup; [apply (generate_column_labels_NoDup (Z.of_nat w)) | |].
    - apply list_lookup_lookup_total_lt.
      rewrite length_column_labels; lia.
    - rewrite Hseat. apply list_lookup_lookup_total_lt.
      rewrite length_column_labels; lia. }
  apply (pattern_inj w Hw) in Hp; [|done..].
  pose proof (Nat.div_mod_eq i w). pose proof (Nat.div_mod_eq j w).
  assert (i / w = j / w)%nat by lia. nia.
Qed.

Lemma no_two_attendees_share_a_seat_witness :
  1 <= 2 /\ row_count 3 2 <= 109 /\
  exists l : locals,
    generate_seating_chart_body (attendees (fun _ => Missing) 3) 2 = Ok l /\
    length (assignments l) = 3%nat.
Proof.
  split; [lia|]. split; [vm_compute; discriminate|].
  destruct (no_two_attendees_share_a_seat (attendees (fun _ => Missing) 3) 2
              ltac:(lia) ltac:(vm_compute; discriminate)) as (l & Hb & _).
  exists l. split; [exact Hb|].
  vm_compute in Hb. injection Hb as <-. reflexivity.
Defined.

(** In every row of the chart the attendees sit side by side in the middle:
    with [filled] attendees in the row, the seats from [(W - filled) / 2]
    on hold a name and all other seats hold the empty string. *)
Theorem occupied_seats_centred (df : list person) (W : Z) :
  1 <= W ->
  let N := Z.of_nat (length df) in
  let rows := row_count N W in
  rows <= 109 ->
  exists l : locals,
    generate_seating_chart_body df W = Ok l /\
    forall (j : nat) (row : list cell) (q : Z),
      seating_chart l !! j = Some row -> 0 <= q < W ->
      let filled :=
        if decide (Z.of_nat j + 1 = rows) then N - W * (rows - 1) else W in
      let first := (W - filled) / 2 in
      (first <= q < first + filled ->
         exists x, x ∈ df /\ row !! Z.to_nat q = Some (NAME x)) /\
      (q < first \/ first + filled <= q ->
         row !! Z.to_nat q = Some (Text [])).
Proof.
  intros HW N rows Hrows.
  destruct (row_count_spec N W ltac:(lia) HW) as [H0 Hc]. fold rows in H0, Hc.
  pose proof (generate_seating_chart_body_returns df W HW Hrows) as Hb.
  fold N rows in Hb.
  assert (exists w, (1 <= w)%nat /\ Z.of_nat w = W) as (w & Hw & <-)
    by (exists (Z.to_nat W); lia).
  rewrite Nat2Z.id in *.
  eexists. split; [exact Hb|]. cbn [final_locals seating_chart].
  intros j row q Hrow Hq.
  set (filled := if decide (Z.of_nat j + 1 = rows)
                 then N - Z.of_nat w * (rows - 1) else Z.of_nat w).
  set (first := (Z.of_nat w - filled) / 2).
  apply list_lookup_fmap_Some in Hrow as (j' & -> & Hj).
  apply lookup_seq in Hj as [-> Hj]. simpl in Hj.
  assert (0 <= filled <= Z.of_nat w) as Hfilled
    by (subst filled; case_decide; nia).
  assert (q ∈ fill_pattern (Z.of_nat w)) as Hin
    by (rewrite fill_pattern_Permutation by lia; apply elem_of_seqZ; lia).
  apply list_elem_of_lookup in Hin as [k Hk].
  assert (k < w)%nat as Hkw
    by (apply lookup_lt_Some in Hk; rewrite length_fill_pattern in Hk; lia).
  assert (Z.of_nat k < filled <-> first <= q < first + filled) as Hiff.
  { rewrite <- (elem_of_seqZ first filled q).
    subst first. rewrite <- (take_fill_pattern (Z.of_nat w) filled) by done.
    rewrite elem_of_take. split.
    - intros Hlt. exists k. split; [done | lia].
    - intros (k' & Hk' & Hlt).
      assert (k' = k) as ->; [|lia].
      eapply NoDup_lookup; [apply (fill_pattern_NoDup (Z.of_nat w)); lia | |];
        done. }
  pose proof (chart_row_lookup w Hw (sort_by PERSONID df) j k Hkw) as Hcell.
  rewrite (list_lookup_total_correct _ _ _ Hk), length_sort_by in Hcell.
  assert (Z.of_nat k < filled <-> (j * w + k < length df)%nat) as Hiff'.
  { clear Hiff Hcell Hk Hb. subst filled first N. clearbody rows.
    case_decide; split; intros; nia. }
  split.
  - intros Hocc. apply Hiff, Hiff' in Hocc.
    rewrite decide_True in Hcell by done.
    destruct (sort_by PERSONID df !! (j * w + k)%nat) as [x|] eqn:Ex.
    + exists x. split; [|done].
      rewrite <- (sort_by_Permutation PERSONID df).
      by eapply list_elem_of_lookup_2.
    + apply lookup_ge_None in Ex. rewrite length_sort_by in Ex. lia.
  - intros Hfree.
    rewrite decide_False in Hcell by (intros Hlt; apply Hiff', Hiff in Hlt; lia).
    done.
Qed.

Lemma occupied_seats_centred_witness :
  1 <= 4 /\ row_count 2 4 <= 109 /\
  exists l : locals,
    generate_seating_chart_body (attendees (fun i => Text (format_02d i)) 2) 4
      = Ok l /\
    seating_chart l
    = [ [Text []; Text (py "01"); Text (py "02"); Text []] ].
Proof.
  split; [lia|]. split; [vm_compute; discriminate|].
  destruct (occupied_seats_centred
              (attendees (fun i => Text (format_02d i)) 2) 4 ltac:(lia)
              ltac:(vm_compute; discriminate)) as (l & Hb & _).
  exists l. split; [exact Hb|].
  vm_compute in Hb. injection Hb as <-. reflexivity.
Defined.

(** ** The export *)

Lemma split_on_nonempty (sep : N) (s : pystr) : split_on sep s <> [].
Proof.
  destruct s as [|c s]; simpl; [done|].
  destruct (c =? sep)%N; [done|]. by destruct (split_on sep s).
Qed.

Lemma join_cons (sep p : pystr) (parts : list pystr) :
  parts <> [] -> join sep (p :: parts) = p ++ sep ++ join sep parts.
Proof. by destruct parts. Qed.

(** Joining the pieces of a split gives the text back. *)
Lemma join_split_on (sep : N) (s : pystr) : join [sep] (split_on sep s) = s.
Proof.
  induction s as [|c s IH]; [done|]. cbn [split_on].
  destruct (c =? sep)%N eqn:E.
  - apply N.eqb_eq in E. subst c.
    rewrite join_cons by apply split_on_nonempty. by rewrite IH.
  - pose proof (split_on_nonempty sep s) as Hne.
    destruct (split_on sep s) as [|piece rest]; [done|].
    destruct rest as [|p2 rest].
    + simpl in *. by rewrite IH.
    + rewrite join_cons by done. rewrite join_cons in IH by done.
      by rewrite <- IH.
Qed.

(** A split has one piece more than the text has separators. *)
Lemma length_split_on (sep : N) (s : pystr) :
  length (split_on sep s) = S (count_char sep s).
Proof.
  unfold count_char. induction s as [|c s IH]; [done|]. cbn [split_on].
  rewrite filter_cons. destruct (c =? sep)%N eqn:E.
  - apply N.eqb_eq in E. rewrite decide_True by done. simpl. by rewrite IH.
  - apply N.eqb_neq in E. rewrite decide_False by done.
    pose proof (split_on_nonempty sep s) as Hne.
    destruct (split_on sep s) as [|piece rest]; [done|]. exact IH.
Qed.

Lemma count_char_app (c : N) (s t : pystr) :
  count_char c (s ++ t) = (count_char c s + count_char c t)%nat.
Proof. unfold count_char. by rewrite filter_app, length_app. Qed.

Lemma count_char_absent (c : N) (s : pystr) : c ∉ s -> count_char c s = 0%nat.
Proof.
  unfold count_char. induction s as [|x s IH]; [done|].
  intros Hnin. apply not_elem_of_cons in Hnin as [Hne Hnin].
  rewrite filter_cons, decide_False by done. by apply IH.
Qed.

(** Lines without a separator, once joined, hold one separator less than
    there are lines. *)
Lemma count_char_join (sep : N) (parts : list pystr) :
  Forall (fun p => sep ∉ p) parts ->
  count_char sep (join [sep] parts) = (length parts - 1)%nat.
Proof.
  induction 1 as [|p parts Hp Hparts IH]; [done|].
  destruct parts as [|p2 parts].
  - simpl. by apply count_char_absent.
  - rewrite join_cons by done. rewrite !count_char_app, IH.
    rewrite (count_char_absent _ p) by done.
    unfold count_char at 1. rewrite filter_cons, decide_True by done.
    simpl. lia.
Qed.



(** ** From the attendee table to the sheet *)

Lemma uint_digits_no_newline (u : Decimal.uint) : 10%N ∉ uint_digits u.
Proof.
  induction u; cbn [uint_digits]; [apply not_elem_of_nil|..];
    (apply not_elem_of_cons; split; [done | exact IHu]).
Qed.

Lemma format_02d_no_newline (n : Z) : 0 <= n -> 10%N ∉ format_02d n.
Proof.
  intros Hn. rewrite format_02d_nonneg by done.
  rewrite not_elem_of_app. split; [|apply uint_digits_no_newline].
  by intros [Heq _]%elem_of_replicate.
Qed.

Lemma row_labels_no_newline :
  Forall (fun n => 10%N ∉ row_label n) (seqZ 1 109).
Proof. apply (bool_decide_unpack _). vm_compute. exact I. Qed.

Lemma explanation_line_no_newline (item : assignment) :
  10%N ∉ ROW item -> 10%N ∉ SEAT item ->
  (forall t, A_NAME item = Text t -> 10%N ∉ t) ->
  10%N ∉ explanation_line item.
Proof.
  intros Hrow Hseat Hname. unfold explanation_line. cbv zeta.
  assert (10%N ∉ py "预留空位") as Hp by (by apply (bool_decide_unpack _)).
  assert (10%N ∉ py " 在") as H1 by (by apply (bool_decide_unpack _)).
  assert (10%N ∉ py "第") as H2 by (by apply (bool_decide_unpack _)).
  assert (10%N ∉ py "座位。") as H3 by (by apply (bool_decide_unpack _)).
  rewrite !not_elem_of_app. split; [|done].
  destruct (isna (A_NAME item) || _ || _); [done|].
  destruct (A_NAME item) as [t|] eqn:E; [by apply Hname | by apply (bool_decide_unpack _)].
Qed.

(** The sheet made for a list of attendees whose names hold no newline: the
    banner stands in row [rows + 1] and the explanation takes one row per
    attendee from row [rows + 3] on (one row when there is no attendee),
    both across the [W + 1] columns of the table. *)
Theorem exported_sheet_layout (df : list person) (W : Z) :
  1 <= W ->
  let N := Z.of_nat (length df) in
  let rows := row_count N W in
  rows <= 109 ->
  (forall x t, x ∈ df -> NAME x = Text t -> 10%N ∉ t) ->
  exists (sdf : dataframe) (text : pystr),
    generate_seating_chart df W = Ok (sdf, text) /\
    write_to_excel sdf text =
      [ ToExcel sdf (py "Sheet1") 0 0 false;
        MergeRange (rows + 1) 0 (rows + 1) W title_text merge_format;
        MergeRange (rows + 3) 0 (rows + 2 + Z.max 1 N) W text
                   explanation_format ]
      ++ ((fun r => SetRow r 20) <$> seqZ (rows + 3) (Z.max 1 N)).
Proof.
  intros HW N rows Hrows Hnames.
  destruct (row_count_spec N W ltac:(lia) HW) as [H0 Hc]. fold rows in H0, Hc.
  pose proof (generate_seating_chart_body_returns df W HW Hrows) as Hb.
  fold N rows in Hb.
  assert (exists w, (1 <= w)%nat /\ Z.of_nat w = W) as (w & Hw & <-)
    by (exists (Z.to_nat W); lia).
  rewrite Nat2Z.id in *.
  eexists _, _. split; [by apply generate_seating_chart_of_body|].
  unfold write_to_excel, range_from. cbv zeta.
  rewrite join_split_on, length_split_on.
  cbn [final_locals seating_df explanation_text table columns].
  rewrite length_fmap, length_reverse, length_seq, length_cons.
  rewrite length_column_labels, Nat2Z.id by lia.
  rewrite count_char_join.
  2:{ apply Forall_fmap, Forall_forall. intros item Hitem.
      apply list_elem_of_lookup in Hitem as [i Hi].
      rewrite list_lookup_imap in Hi.
      destruct (sort_by PERSONID df !! i) as [x|] eqn:Ex; [|done].
      injection Hi as <-. simpl.
      assert (i < length df)%nat as Hlt
        by (apply lookup_lt_Some in Ex; by rewrite length_sort_by in Ex).
      apply explanation_line_no_newline; cbn [placement ROW SEAT A_NAME].
      - assert (i / w < Z.to_nat rows)%nat
          by (apply Nat.Div0.div_lt_upper_bound; nia).
        pose proof row_labels_no_newline as Hall.
        rewrite Forall_seqZ in Hall. apply Hall. lia.
      - assert (i mod w < w)%nat as Hk by (apply Nat.mod_upper_bound; lia).
        destruct (pattern_lookup w Hw _ Hk) as [_ Hbnd].
        assert (generate_column_labels (Z.of_nat w)
                  !!! Z.to_nat (fill_pattern (Z.of_nat w) !!! (i mod w)%nat)
                ∈ generate_column_labels (Z.of_nat w)) as Hin.
        { eapply list_elem_of_lookup_2, list_lookup_lookup_total_lt.
          rewrite length_column_labels; lia. }
        apply column_labels_elem in Hin as (m & Hm & ->).
        apply format_02d_no_newline. lia.
      - intros t Ht. apply (Hnames x); [|done].
        rewrite <- (sort_by_Permutation PERSONID df).
        by eapply list_elem_of_lookup_2. }
  rewrite length_fmap, length_imap, length_sort_by.
  set (k := Z.of_nat (S (length df - 1))).
  assert (k = Z.max 1 N) as -> by lia.
  replace (Z.of_nat (Z.to_nat rows)) with rows by lia.
  replace (Z.of_nat (S w) - 1) with (Z.of_nat w) by lia.
  replace (rows + 1 + 2) with (rows + 3) by lia.
  replace (rows + 3 + Z.max 1 N - 1) with (rows + 2 + Z.max 1 N) by lia.
  by replace (rows + 2 + Z.max 1 N + 1 - (rows + 3)) with (Z.max 1 N) by lia.
Qed.

Lemma exported_sheet_layout_witness :
  1 <= 2 /\ row_count 3 2 <= 109 /\
  exists (sdf : dataframe) (text : pystr),
    generate_seating_chart (attendees (fun _ => Missing) 3) 2 = Ok (sdf, text) /\
    drop 3 (write_to_excel sdf text) = [SetRow 5 20; SetRow 6 20; SetRow 7 20].
Proof.
  split; [lia|]. split; [vm_compute; discriminate|].
  destruct (exported_sheet_layout (attendees (fun _ => Missing) 3) 2
              ltac:(lia) ltac:(vm_compute; discriminate))
    as (sdf & text & Hg & Hw).
  { intros x t Hx Ht. unfold attendees in Hx.
    apply list_elem_of_fmap in Hx as (i & -> & _). discriminate Ht. }
  exists sdf, text. split; [exact Hg|].
  rewrite Hw. reflexivity.
Defined.

(** The two outputs agree: the row label and the seat label in the
    explanation of an attendee are the label of the table row and the
    header of the column in which the name of the attendee stands. *)
Theorem explanation_matches_table (df : list person) (W : Z) :
  1 <= W ->
  let rows := row_count (Z.of_nat (length df)) W in
  rows <= 109 ->
  exists l : locals,
    generate_seating_chart_body df W = Ok l /\
    forall (i : nat) (x : person),
      df_sorted l !! i = Some x ->
      exists (item : assignment) (trow : list cell) (col : nat),
        assignments l !! i = Some item /\
        table (seating_df l) !! Z.to_nat (rows - 1 - Z.of_nat i / W) = Some trow /\
        trow !! 0%nat = Some (Text (ROW item)) /\
        (1 <= col <= Z.to_nat W)%nat /\
        trow !! col = Some (NAME x) /\
        columns (seating_df l) !! col = Some (SEAT item).
Proof.
  intros HW rows Hrows.
  destruct (row_count_spec (Z.of_nat (length df)) W ltac:(lia) HW) as [H0 Hc].
  fold rows in H0, Hc.
  pose proof (generate_seating_chart_body_returns df W HW Hrows) as Hb.
  fold rows in Hb.
  assert (exists w, (1 <= w)%nat /\ Z.of_nat w = W) as (w & Hw & <-)
    by (exists (Z.to_nat W); lia).
  rewrite Nat2Z.id in *.
  eexists. split; [exact Hb|].
  cbn [final_locals df_sorted assignments seating_df table columns].
  intros i x Hx.
  assert (i < length df)%nat as Hi
    by (apply lookup_lt_Some in Hx; by rewrite length_sort_by in Hx).
  assert (i mod w < w)%nat as Hk by (apply Nat.mod_upper_bound; lia).
  assert (i / w < Z.to_nat rows)%nat as Hr
    by (apply Nat.Div0.div_lt_upper_bound; nia).
  destruct (pattern_lookup w Hw (i mod w)%nat Hk) as [Hl Hbnd].
  set (seat := Z.to_nat (fill_pattern (Z.of_nat w) !!! (i mod w)%nat)) in *.
  exists (placement w i x),
    (Text (row_label (Z.of_nat (i / w) + 1))
       :: chart_row w (sort_by PERSONID df) (i / w)),
    (S seat).
  split; [by rewrite list_lookup_imap, Hx|].
  split.
  { rewrite <- Nat2Z.inj_div.
    rewrite list_lookup_fmap, reverse_lookup by (rewrite length_seq; lia).
    rewrite length_seq, lookup_seq_lt by lia. simpl.
    by replace (Z.to_nat rows - S (Z.to_nat (rows - 1 - Z.of_nat (i / w))))%nat
      with (i / w)%nat by lia. }
  split; [done|].
  split; [lia|].
  split.
  { cbn [lookup list_lookup].
    pose proof (chart_row_lookup w Hw (sort_by PERSONID df)
                  (i / w) (i mod w) Hk) as Hcell.
    assert (i / w * w + i mod w = i)%nat as Hdm
      by (pose proof (Nat.div_mod_eq i w); lia).
    rewrite Hdm, length_sort_by, decide_True, Hx in Hcell by lia.
    exact Hcell. }
  cbn [lookup list_lookup placement SEAT].
  apply list_lookup_lookup_total_lt. rewrite length_column_labels; lia.
Qed.

Lemma explanation_matches_table_witness :
  1 <= 2 /\ row_count 3 2 <= 109 /\
  exists l : locals,
    generate_seating_chart_body (attendees (fun i => Text (format_02d i)) 3) 2
      = Ok l /\
    table (seating_df l)
    = [ [Text (py "第二排"); Text (py "03"); Text []];
        [Text (py "第一排"); Text (py "01"); Text (py "02")] ].
Proof.
  split; [lia|]. split; [vm_compute; discriminate|].
  destruct (explanation_matches_table
              (attendees (fun i => Text (format_02d i)) 3) 2 ltac:(lia)
              ltac:(vm_compute; discriminate)) as (l & Hb & _).
  exists l. split; [exact Hb|].
  vm_compute in Hb. injection Hb as <-. reflexivity.
Defined.
